(** * zkillboard_interface: the fetch pipeline of q.zkillboard_interface

    A shallow embedding of [ZKillboardClient.send_zkb_request_http]
    (src/zkillboard_client.py) and of [ZKillboardInterface.get_zkb_data]
    (src/zkillboard_interface.py), together with the properties of the
    retry loop and of the cache protocol.

    Conventions of the embedding:
    - Python [int] is [Z]; Python [str] is [string]; Python [None] returned
      as a payload is [JNull].
    - The network is a script: the list of outcomes of the successive
      [requests.get] / [requests.post] calls.  A run that needs more
      outcomes than the script holds ends in [Pending] (the Python loop is
      still running).
    - Observable effects ([requests] calls, [time.sleep], cache file writes)
      are appended to a trace, in program order.
    - The cache directory is a finite map from file names to documents;
      [json.dumps] followed by [json.loads] is taken to be the identity on
      the documents this program writes. *)

From Stdlib Require Import ZArith Lia Ascii String.
From stdpp Require Import base option list strings gmap.

Set Warnings "-register-all".

Local Open Scope string_scope.
Local Open Scope Z_scope.

(** ** Strings, the Python way *)

Module PyStr.

(** [s[-1:]]: the last character as a string, empty on the empty string. *)
Fixpoint last1 (s : string) : string :=
  match s with
  | EmptyString => EmptyString
  | String c EmptyString => String c EmptyString
  | String _ rest => last1 rest
  end.

(** [s[:-1]]: everything but the last character. *)
Fixpoint drop_last (s : string) : string :=
  match s with
  | EmptyString => EmptyString
  | String _ EmptyString => EmptyString
  | String c rest => String c (drop_last rest)
  end.

(** [s.replace(c, by)] for a one-character pattern [c]. *)
Fixpoint replace (c : ascii) (by_ : string) (s : string) : string :=
  match s with
  | EmptyString => EmptyString
  | String d rest =>
      if Ascii.eqb d c then by_ +:+ replace c by_ rest
      else String d (replace c by_ rest)
  end.

(** Python truthiness of a string. *)
Definition truthy (s : string) : bool :=
  match s with EmptyString => false | _ => true end.

End PyStr.

(** ** Data model *)

(** Decoded JSON values ([json.loads], [Response.json()]). *)
Inductive json : Type :=
| JNull
| JBool (b : bool)
| JNum (n : Z)
| JStr (s : string)
| JArr (items : list json)
| JObj (fields : list (string * json)).

(** The ["headers"] object of a cache file.  [__get_cached_headers] writes
    the first three keys, the 403/404 handlers write ["Http-Error"]. *)
Record cached_headers : Type := CachedHeaders {
  ch_date : option string;
  ch_expires : option string;
  ch_last_modified : option string;
  ch_http_error : option Z
}.

(** A cache file after [json.loads].  [None] in a field is an absent key:
    [doc_headers = None] makes [cached_data["headers"]] a [KeyError], and
    [doc_json = None] makes ["json" in cached_data] false.  A headers value
    that is not a JSON object is not modelled. *)
Record cached_doc : Type := CachedDoc {
  doc_headers : option cached_headers;
  doc_json : option json
}.

(** The headers of a [requests.Response] that the program reads (the
    lookup is case-insensitive in [requests], hence fields), its status and
    the result of [Response.json()], [None] when the body does not decode. *)
Record response : Type := Response {
  status_code : Z;
  h_date : option string;
  h_expires : option string;
  h_last_modified : option string;
  rsp_json : option json
}.

(** Exceptions that cross a function boundary. *)
Inductive exn : Type :=
| HTTPError (code : Z)          (* requests.exceptions.HTTPError *)
| ConnectionError               (* requests.exceptions.ConnectionError *)
| Timeout                       (* requests.exceptions.Timeout *)
| RequestException              (* any other failure of requests.get/post *)
| JSONDecodeError               (* Response.json() on a body that is not JSON *)
| ParserError                   (* dateutil.parser.parse *)
| KeyError                      (* cached_data["headers"] on a missing key *)
| TypeError.                    (* cached_data["headers"] when cached_data is None *)

(** Outcome of one [requests.get] / [requests.post] call:
    [NetConnectionError] is any instance of [requests.ConnectionError]
    (a connect timeout included), [NetTimeout] a [requests.Timeout] that is
    not a connection error (a read timeout), [NetFailure] any other
    exception of the call. *)
Inductive net_event : Type :=
| NetConnectionError
| NetTimeout
| NetFailure
| NetResponse (r : response).

Inductive http_method : Type := GET | POST.

(** The request headers dictionary built by [send_zkb_request_http]. *)
Record request_headers : Type := RequestHeaders {
  rh_if_modified_since : option string;
  rh_user_agent : option string;
  rh_content_type : option string
}.

Record request : Type := Request {
  rq_method : http_method;
  rq_uri : string;
  rq_headers : request_headers;
  rq_data : option string;
  rq_timeout : option (Z * Z);
  rq_session : bool
}.

(** Observable effects, in program order. *)
Inductive io_event : Type :=
| IoSend (rq : request)
| IoSleep (seconds : Z)
| IoWrite (f_name : string).

(** What a call yields: a value, an exception, or a loop still running when
    the network script ran out. *)
Inductive outcome (A : Type) : Type :=
| Return (a : A)
| Raise (e : exn)
| Pending.
Arguments Return {A} a.
Arguments Raise {A} e.
Arguments Pending {A}.

(** The world outside the two objects. *)
Record world : Type := World {
  net : list net_event;
  files : gmap string cached_doc;
  trace : list io_event
}.

Definition emit (ev : io_event) (w : world) : world :=
  {| net := net w; files := files w; trace := (trace w ++ [ev])%list |}.

Definition set_net (script : list net_event) (w : world) : world :=
  {| net := script; files := files w; trace := trace w |}.

Definition write_file (f_name : string) (d : cached_doc) (w : world) : world :=
  {| net := net w; files := <[f_name := d]> (files w);
     trace := (trace w ++ [IoWrite f_name])%list |}.

(** ** ZKillboardClient (src/zkillboard_client.py) *)

(** [self.__attempts_to_reconnect], set once in [__init__]. *)
Definition attempts_to_reconnect : Z := 5.

Definition timeout_connect : Z := 3.
Definition timeout_read : Z := 7.

(** Local variables of [send_zkb_request_http]. *)
Record locals : Type := Locals {
  headers : request_headers;
  http_connection_times : Z;
  requests_get_times : Z;
  proxy_error_times : Z;
  throttle_error_times : Z
}.

Definition set_content_type (l : locals) : locals :=
  {| headers := {| rh_if_modified_since := rh_if_modified_since (headers l);
                   rh_user_agent := rh_user_agent (headers l);
                   rh_content_type := Some "application/json" |};
     http_connection_times := http_connection_times l;
     requests_get_times := requests_get_times l;
     proxy_error_times := proxy_error_times l;
     throttle_error_times := throttle_error_times l |}.

Definition incr_requests_get_times (l : locals) : locals :=
  {| headers := headers l;
     http_connection_times := http_connection_times l;
     requests_get_times := requests_get_times l + 1;
     proxy_error_times := proxy_error_times l;
     throttle_error_times := throttle_error_times l |}.

Definition incr_proxy_error_times (l : locals) : locals :=
  {| headers := headers l;
     http_connection_times := http_connection_times l;
     requests_get_times := requests_get_times l;
     proxy_error_times := proxy_error_times l + 1;
     throttle_error_times := throttle_error_times l |}.

Definition incr_throttle_error_times (l : locals) : locals :=
  {| headers := headers l;
     http_connection_times := http_connection_times l;
     requests_get_times := requests_get_times l;
     proxy_error_times := proxy_error_times l;
     throttle_error_times := throttle_error_times l + 1 |}.

(** The [continue] of the outer loop after a connection error: the counter
    goes up and the outer [try] starts again, which zeroes the two status
    counters. *)
Definition reconnect (l : locals) : locals :=
  {| headers := headers l;
     http_connection_times := http_connection_times l + 1;
     requests_get_times := requests_get_times l;
     proxy_error_times := 0;
     throttle_error_times := 0 |}.

(** [Response.raise_for_status()]: an [HTTPError] for 4xx and 5xx. *)
Definition raises_for_status (res : response) : bool :=
  (400 <=? status_code res) && (status_code res <? 600).

Section Pipeline.

(** [datetime.datetime] and [dateutil.parser.parse]; [None] is the
    parser's [ParserError]. *)
Context {datetime : Type}.
Variable parsedate : string -> option datetime.

Record client : Type := Client {
  debug : bool;
  logger : bool;
  user_agent : option string;
  c_last_modified : option datetime;
  keep_alive : bool;
  restrict_tls13 : bool;
  session : bool                  (* [self.__session is not None] *)
}.

(** [ZKillboardClient.__init__] *)
Definition new_client (keep_alive_ debug_ logger_ : bool)
    (user_agent_ : option string) (restrict_tls13_ : bool) : client :=
  {| debug := debug_; logger := logger_; user_agent := user_agent_;
     c_last_modified := None; keep_alive := keep_alive_;
     restrict_tls13 := restrict_tls13_; session := false |}.

Definition set_c_last_modified (t : option datetime) (c : client) : client :=
  {| debug := debug c; logger := logger c; user_agent := user_agent c;
     c_last_modified := t; keep_alive := keep_alive c;
     restrict_tls13 := restrict_tls13 c; session := session c |}.

(** [__keep_connection]: the session is created on first use. *)
Definition keep_connection (c : client) : client :=
  {| debug := debug c; logger := logger c; user_agent := user_agent c;
     c_last_modified := c_last_modified c; keep_alive := keep_alive c;
     restrict_tls13 := restrict_tls13 c; session := true |}.

Definition acquire (c : client) : client :=
  if keep_alive c then keep_connection c else c.

(** Lines 194-202, the [if self.__logger:] block.  Only the assignment to
    [self.__last_modified] is kept of it; the printed line is not
    modelled. *)
Definition log_response (res : response) (c : client) : exn + client :=
  if logger c then
    match h_last_modified res with
    | Some url_time =>
        match parsedate url_time with
        | Some t => inr (set_c_last_modified (Some t) c)
        | None => inl ParserError
        end
    | None => inr c
    end
  else inr c.

(** The tail of the inner loop once no retry applies, lines 226-227 and
    the [except HTTPError] handler of lines 241-245, whose
    [print(res.json())] comes before its [raise]. *)
Definition finish (res : response) : outcome response :=
  if raises_for_status res then
    match rsp_json res with
    | Some _ => Raise (HTTPError (status_code res))
    | None => Raise JSONDecodeError
    end
  else Return res.

Definition get_request (uri : string) (c : client) (l : locals) : request :=
  {| rq_method := GET; rq_uri := uri; rq_headers := headers l;
     rq_data := None; rq_timeout := Some (timeout_connect, timeout_read);
     rq_session := keep_alive c |}.

Definition post_request (uri data : string) (c : client) (l : locals) : request :=
  {| rq_method := POST; rq_uri := uri; rq_headers := headers l;
     rq_data := Some data; rq_timeout := None;
     rq_session := keep_alive c |}.

(** The locals when a request is issued: line 155 before a GET, line 176
    before a POST. *)
Definition advance (body : option string) (l : locals) : locals :=
  match body with
  | None => incr_requests_get_times l
  | Some _ => set_content_type l
  end.

(** The request issued by one turn of the loop, lines 156-161 and
    177-182. *)
Definition issued (uri : string) (body : option string) (c : client)
    (l : locals) : request :=
  match body with
  | None => get_request uri c (advance body l)
  | Some data => post_request uri data c (advance body l)
  end.

(** The three nested loops of [send_zkb_request_http], lines 143-249, one
    call of [requests.get] or [requests.post] per step.  The call is
    issued first; its outcome is the head of the script, and with no
    outcome left the run is [Pending].  The remaining script is put back
    into the world on exit. *)
Fixpoint request_loop (script : list net_event) (uri : string)
    (body : option string) (c : client) (l : locals) (w : world)
    : outcome response * client * world :=
  let l1 := advance body l in
  let c1 := acquire c in
  let w1 := emit (IoSend (issued uri body c l)) w in
  match script with
  | [] => (Pending, c1, set_net [] w1)
  | ev :: rest =>
      match ev, body with
      | NetConnectionError, None => request_loop rest uri body c1 l1 w1
      | NetTimeout, None => request_loop rest uri body c1 l1 w1
      | NetConnectionError, Some _ =>
          if http_connection_times l1 <? attempts_to_reconnect then
            request_loop rest uri body c1 (reconnect l1) (emit (IoSleep 1) w1)
          else (Raise ConnectionError, c1, set_net rest w1)
      | NetTimeout, Some _ => (Raise Timeout, c1, set_net rest w1)
      | NetFailure, _ => (Raise RequestException, c1, set_net rest w1)
      | NetResponse res, _ =>
          match log_response res c1 with
          | inl e => (Raise e, c1, set_net rest w1)
          | inr c2 =>
              if ((status_code res =? 502) || (status_code res =? 504))
                 && (proxy_error_times l1 <? attempts_to_reconnect) then
                request_loop rest uri body c2 (incr_proxy_error_times l1) w1
              else if (status_code res =? 503)
                      && (proxy_error_times l1 <? attempts_to_reconnect) then
                match rsp_json res with
                | None => (Raise JSONDecodeError, c2, set_net rest w1)
                | Some _ =>
                    let l2 := incr_proxy_error_times l1 in
                    request_loop rest uri body c2 l2
                      (emit (IoSleep (2 * proxy_error_times l2)) w1)
                end
              else if (status_code res =? 520)
                      && (throttle_error_times l1 <? attempts_to_reconnect) then
                match rsp_json res with
                | None => (Raise JSONDecodeError, c2, set_net rest w1)
                | Some _ =>
                    request_loop rest uri body c2 (incr_throttle_error_times l1)
                      (emit (IoSleep 5) w1)
                end
              else (finish res, c2, set_net rest w1)
          end
      end
  end.

(** The [Last-Modified] header of a response, when it has one, is a
    date: the logger block does not raise on it. *)
Definition loggable (res : response) : Prop :=
  match h_last_modified res with
  | Some url_time => is_Some (parsedate url_time)
  | None => True
  end.

(** A 503 answer the retry branch of lines 208-215 goes through: its body
    is JSON and its [Last-Modified], if any, is a date. *)
Definition retryable_503 (res : response) : Prop :=
  status_code res = 503 /\ is_Some (rsp_json res) /\ loggable res.

(** The client after the logger block on a loggable response. *)
Definition observe (res : response) (c : client) : client :=
  if logger c then
    match h_last_modified res with
    | Some url_time =>
        match parsedate url_time with
        | Some t => set_c_last_modified (Some t) c
        | None => c
        end
    | None => c
    end
  else c.

(** Lines 131-142: the request headers and the initial counters. *)
Definition initial_locals (c : client) (last_modified : option string)
    (body : option string) : locals :=
  {| headers :=
       {| rh_if_modified_since :=
            match last_modified, body with
            | Some lm, None => Some lm
            | _, _ => None
            end;
          rh_user_agent :=
            match user_agent c with
            | Some ua => if PyStr.truthy ua then Some ua else None
            | None => None
            end;
          rh_content_type := None |};
     http_connection_times := 0;
     requests_get_times := 0;
     proxy_error_times := 0;
     throttle_error_times := 0 |}.

Definition send_zkb_request_http (c : client) (uri : string)
    (last_modified : option string) (body : option string) (w : world)
    : outcome response * client * world :=
  request_loop (net w) uri body (set_c_last_modified None c)
    (initial_locals c last_modified body) w.

(** ** ZKillboardInterface (src/zkillboard_interface.py) *)

Definition server_url : string := "https://zkillboard.com/api/".

Record interface : Type := Interface {
  offline_mode : bool;
  cache_dir : string;
  is_last_data_updated : bool;
  last_modified : option datetime;
  zkb_client : client
}.

(** [setup_cache_dir]: one trailing slash of the directory is dropped. *)
Definition setup_cache_dir (dir : string) : string :=
  if String.eqb (PyStr.last1 dir) "/" then PyStr.drop_last dir else dir.

(** [ZKillboardInterface.__init__] *)
Definition new_interface (c : client) (dir : string) (offline : bool)
    : interface :=
  {| offline_mode := offline; cache_dir := setup_cache_dir dir;
     is_last_data_updated := false; last_modified := None;
     zkb_client := c |}.

(** [__get_f_name], lines 81-87, on the directory of the instance. *)
Definition get_f_name_in (dir url : string) : string :=
  let url := if String.eqb (PyStr.last1 url) "/"
             then PyStr.drop_last url else url in
  let url := PyStr.replace "/" "_" url in
  let url := PyStr.replace "=" "-" url in
  let url := PyStr.replace "?" "" url in
  let url := PyStr.replace "&" "." url in
  dir +:+ "/.cache_" +:+ url +:+ ".json".

Definition get_f_name (self : interface) (url : string) : string :=
  get_f_name_in (cache_dir self) url.

(** [__get_cached_headers] *)
Definition get_cached_headers (data : response) : cached_headers :=
  {| ch_date := h_date data; ch_expires := h_expires data;
     ch_last_modified := h_last_modified data; ch_http_error := None |}.

(** The dictionary [{"Http-Error": code}] of the 403/404 handlers. *)
Definition http_error_headers (code : Z) : cached_headers :=
  {| ch_date := None; ch_expires := None; ch_last_modified := None;
     ch_http_error := Some code |}.

(** The cache file of the 403/404 handlers, lines 207 and 211: the error
    code in the headers and [null] for the payload. *)
Definition sticky_document (code : Z) : cached_doc :=
  {| doc_headers := Some (http_error_headers code); doc_json := Some JNull |}.

(** [__dump_cache_into_file]: the file always gets both keys. *)
Definition dump_cache_into_file (self : interface) (url : string)
    (data_headers : cached_headers) (data_json : json) (w : world) : world :=
  write_file (get_f_name self url)
    {| doc_headers := Some data_headers; doc_json := Some data_json |} w.

(** [__take_cache_from_file] *)
Definition take_cache_from_file (self : interface) (url : string)
    (w : world) : option cached_doc :=
  files w !! get_f_name self url.

(** [cached_data.get("json", None)] *)
Definition get_json (d : cached_doc) : json :=
  match doc_json d with Some j => j | None => JNull end.

Definition reset (self : interface) : interface :=
  {| offline_mode := offline_mode self; cache_dir := cache_dir self;
     is_last_data_updated := false; last_modified := None;
     zkb_client := zkb_client self |}.

Definition set_last_modified (t : option datetime) (self : interface)
    : interface :=
  {| offline_mode := offline_mode self; cache_dir := cache_dir self;
     is_last_data_updated := is_last_data_updated self; last_modified := t;
     zkb_client := zkb_client self |}.

Definition set_client (c : client) (self : interface) : interface :=
  {| offline_mode := offline_mode self; cache_dir := cache_dir self;
     is_last_data_updated := is_last_data_updated self;
     last_modified := last_modified self; zkb_client := c |}.

Definition set_updated (t : option datetime) (self : interface) : interface :=
  {| offline_mode := offline_mode self; cache_dir := cache_dir self;
     is_last_data_updated := true; last_modified := t;
     zkb_client := zkb_client self |}.

(** Lines 164-167 and 194-197: the payload of a cached document, with the
    reported timestamp taken from its stored header. *)
Definition serve_cached (d : cached_doc) (h : cached_headers)
    (self : interface) (w : world) : outcome json * interface * world :=
  match ch_last_modified h with
  | Some url_time =>
      match parsedate url_time with
      | Some t => (Return (get_json d), set_last_modified (Some t) self, w)
      | None => (Raise ParserError, self, w)
      end
  | None => (Return (get_json d), self, w)
  end.

(** [__esi_raise_for_status]: an [HTTPError] built from a status code. *)
Definition esi_raise_for_status {A : Type} (code : Z) : outcome A :=
  Raise (HTTPError code).

(** Lines 168-177, offline mode. *)
Definition offline_fetch (cached_data : option cached_doc)
    (self : interface) (w : world) : outcome json * interface * world :=
  match cached_data with
  | None => (Return JNull, self, w)
  | Some d =>
      match doc_headers d with
      | None => (Raise KeyError, self, w)
      | Some h =>
          match ch_http_error h with
          | Some code => (esi_raise_for_status code, self, w)
          | None => (Return (get_json d), self, w)
          end
      end
  end.

(** Lines 185-190: the timestamp sent for revalidation. *)
Definition conditional_timestamp (cached_data : option cached_doc)
    : option string :=
  match cached_data with
  | Some d =>
      match doc_headers d with
      | Some h => ch_last_modified h
      | None => None
      end
  | None => None
  end.

(** Lines 180-214, online mode. *)
Definition online_fetch (cached_data : option cached_doc) (url : string)
    (body : option string) (self : interface) (w : world)
    : outcome json * interface * world :=
  let data_path := server_url +:+ url in
  let '(r, c, w1) :=
    send_zkb_request_http (zkb_client self) data_path
      (conditional_timestamp cached_data) body w in
  let self1 := set_client c self in
  match r with
  | Return data =>
      if status_code data =? 304 then
        match cached_data with
        | None => (Raise TypeError, self1, w1)
        | Some d =>
            match doc_headers d with
            | None => (Raise KeyError, self1, w1)
            | Some h => serve_cached d h self1 w1
            end
        end
      else
        match rsp_json data with
        | None => (Raise JSONDecodeError, self1, w1)
        | Some j =>
            (Return j, set_updated (c_last_modified c) self1,
             dump_cache_into_file self1 url (get_cached_headers data) j w1)
        end
  | Raise (HTTPError code) =>
      if code =? 403 then
        (Raise (HTTPError code), self1,
         dump_cache_into_file self1 url (http_error_headers 403) JNull w1)
      else if code =? 404 then
        (Raise (HTTPError code), self1,
         dump_cache_into_file self1 url (http_error_headers 404) JNull w1)
      else (Return JNull, self1, w1)
  | Raise e => (Raise e, self1, w1)
  | Pending => (Pending, self1, w1)
  end.

(** Lines 168-214: the two modes. *)
Definition fetch_by_mode (cached_data : option cached_doc) (url : string)
    (body : option string) (self : interface) (w : world)
    : outcome json * interface * world :=
  if offline_mode self then offline_fetch cached_data self w
  else online_fetch cached_data url body self w.

(** ["json" in cached_data] *)
Definition has_json (d : cached_doc) : bool :=
  match doc_json d with Some _ => true | None => false end.

(** [get_zkb_data], lines 157-214. *)
Definition get_zkb_data (self : interface) (url : string)
    (body : option string) (fully_trust_cache : bool) (w : world)
    : outcome json * interface * world :=
  let cached_data := take_cache_from_file self url w in
  let self := reset self in
  match cached_data with
  | Some d =>
      if negb (offline_mode self) && fully_trust_cache && has_json d then
        match doc_headers d with
        | None => (Raise KeyError, self, w)
        | Some h =>
            match ch_http_error h with
            | None => serve_cached d h self w
            | Some _ => fetch_by_mode cached_data url body self w
            end
        end
      else fetch_by_mode cached_data url body self w
  | None => fetch_by_mode cached_data url body self w
  end.

(** The call ends in lines 160-167 and never reaches the two modes: the
    test of line 160 holds and the document has no ["Http-Error"] (or no
    ["headers"], a [KeyError]). *)
Definition stops_at_trust_cache (self : interface)
    (fully_trust_cache : bool) (cached_data : option cached_doc) : bool :=
  match cached_data with
  | Some d =>
      negb (offline_mode self) && fully_trust_cache && has_json d
      && match doc_headers d with
         | Some h => match ch_http_error h with Some _ => false | None => true end
         | None => true
         end
  | None => false
  end.

End Pipeline.

(** ** Reading a trace *)

(** The delays of the [time.sleep] calls of a trace, in order. *)
Fixpoint sleeps (tr : list io_event) : list Z :=
  match tr with
  | [] => []
  | IoSleep d :: rest => d :: sleeps rest
  | _ :: rest => sleeps rest
  end.

(** The requests of a trace, in order. *)
Fixpoint sends (tr : list io_event) : list request :=
  match tr with
  | [] => []
  | IoSend rq :: rest => rq :: sends rest
  | _ :: rest => sends rest
  end.

(** The cache files written by a trace, in order. *)
Fixpoint writes (tr : list io_event) : list string :=
  match tr with
  | [] => []
  | IoWrite f :: rest => f :: writes rest
  | _ :: rest => writes rest
  end.

(** The number of one-second sleeps, which only the connection retry of
    line 238 makes (the 503 branch sleeps 2 to 10 seconds, the 520 branch
    5). *)
Fixpoint reconnect_sleeps (tr : list io_event) : nat :=
  match tr with
  | [] => 0
  | IoSleep d :: rest =>
      ((if (d =? 1)%Z then 1 else 0) + reconnect_sleeps rest)%nat
  | _ :: rest => reconnect_sleeps rest
  end.

(** The delays of [n] successive 503 retries when [proxy_error_times] is
    [p] before the first: [2 * (p + 1)], [2 * (p + 2)], ... *)
Fixpoint backoff (p : Z) (n : nat) : list Z :=
  match n with
  | O => []
  | S n' => 2 * (p + 1) :: backoff (p + 1) n'
  end.

(** What a call adds to the world: it leaves the cache files alone and
    appends [tr] to the trace. *)
Definition extends (w w' : world) (tr : list io_event) : Prop :=
  files w' = files w /\ trace w' = (trace w ++ tr)%list.

(** The timestamp a cached document stores, as the coordinator reads it:
    [parsedate(cached_data["headers"].get("last-modified"))]. *)
Definition stored_timestamp {datetime : Type}
    (parsedate : string -> option datetime) (h : cached_headers)
    : option datetime :=
  match ch_last_modified h with
  | Some url_time => parsedate url_time
  | None => None
  end.

(** The stored [last-modified] string, when there is one, is a date. *)
Definition timestamp_ok {datetime : Type}
    (parsedate : string -> option datetime) (h : cached_headers) : Prop :=
  match ch_last_modified h with
  | Some url_time => is_Some (parsedate url_time)
  | None => True
  end.

(** A run of fetches of one resource on one instance; each call is its
    [body] and [fully_trust_cache] arguments and the script the network
    follows during it. *)
Fixpoint fetch_all {datetime : Type} (parsedate : string -> option datetime)
    (calls : list (option string * bool * list net_event))
    (self : interface) (url : string) (w : world) : list (outcome json) :=
  match calls with
  | [] => []
  | (body, trust, script) :: rest =>
      let '(r, self1, w1) :=
        get_zkb_data parsedate self url body trust (set_net script w) in
      r :: fetch_all parsedate rest self1 url w1
  end.

(** ** Sample data used by the examples *)

Module Sample.

(** A stand-in for [dateutil.parser.parse]: every non-empty string is a
    date, the empty string is a [ParserError]. *)
Definition parsedate (s : string) : option string :=
  match s with EmptyString => None | _ => Some s end.

Definition stamp : string := "Wed, 21 Oct 2015 07:28:00 GMT".
Definition older : string := "Mon, 12 Jan 2015 10:00:00 GMT".

Definition payload : json := JArr [JObj [("killmail_id", JNum 42)]].

Definition error_body : json := JObj [("error", JStr "unavailable")].

Definition ok (lm : option string) : response :=
  {| status_code := 200; h_date := None; h_expires := None;
     h_last_modified := lm; rsp_json := Some payload |}.

(** A response with a JSON error body and no headers of interest. *)
Definition status (code : Z) : response :=
  {| status_code := code; h_date := None; h_expires := None;
     h_last_modified := None; rsp_json := Some error_body |}.

(** A 503 page that is not JSON, as a proxy in front of the API sends. *)
Definition html_503 : response :=
  {| status_code := 503; h_date := None; h_expires := None;
     h_last_modified := None; rsp_json := None |}.

Definition cli (logger_ : bool) : client (datetime := string) :=
  new_client false false logger_ None false.

Definition online : interface := new_interface (cli true) "/tmp/.zkb_cache/" false.

(** An online instance whose client has its logger off. *)
Definition silent : interface := new_interface (cli false) "/tmp/.zkb_cache/" false.

(** A 503 with a JSON error body and a [Last-Modified] header. *)
Definition unavailable_dated : response :=
  {| status_code := 503; h_date := None; h_expires := None;
     h_last_modified := Some older; rsp_json := Some error_body |}.
Definition offline : interface := new_interface (cli true) "/tmp/.zkb_cache/" true.

Definition url : string := "corporationID/787611831/".

Definition good_headers : cached_headers :=
  {| ch_date := None; ch_expires := None; ch_last_modified := Some older;
     ch_http_error := None |}.

Definition good_doc : cached_doc :=
  {| doc_headers := Some good_headers; doc_json := Some payload |}.

Definition not_modified : response :=
  {| status_code := 304; h_date := None; h_expires := None;
     h_last_modified := None; rsp_json := None |}.

Definition empty_world (script : list net_event) : world :=
  {| net := script; files := ∅; trace := [] |}.

Definition cached_world (d : cached_doc) (script : list net_event) : world :=
  {| net := script; files := {[ get_f_name online url := d ]}; trace := [] |}.

End Sample.


(** ** Further functions of the two classes *)

(** The part of the file name [__get_f_name] derives from the url, lines
    81-86; [get_f_name_in] wraps it in the directory and the suffix. *)
Definition cache_name (url : string) : string :=
  let url := if String.eqb (PyStr.last1 url) "/"
             then PyStr.drop_last url else url in
  let url := PyStr.replace "/" "_" url in
  let url := PyStr.replace "=" "-" url in
  let url := PyStr.replace "?" "" url in
  PyStr.replace "&" "." url.

(** The characters of a string. *)
Fixpoint chars (s : string) : list ascii :=
  match s with
  | EmptyString => []
  | String c rest => c :: chars rest
  end.

(** A byte of the form [10xxxxxx], which continues a UTF-8 character. *)
Definition is_continuation (c : ascii) : bool :=
  match c with
  | Ascii _ _ _ _ _ _ false true => true
  | _ => false
  end.

(** The characters (code points) of a UTF-8 string, each with its
    continuation bytes: what iterating a Python [str] yields. *)
Fixpoint code_points (s : string) : list string :=
  match s with
  | EmptyString => []
  | String c rest =>
      let follows :=
        match rest with
        | String d _ => is_continuation d
        | EmptyString => false
        end in
      match code_points rest with
      | p :: ps =>
          if follows then String c p :: ps
          else String c EmptyString :: p :: ps
      | [] => [String c EmptyString]
      end
  end.

(** What a Python [for] loop (and [list +=]) gets out of a decoded JSON
    value: the items of a list, the keys of an object, the characters of a
    string; [None] is the [TypeError] of a value that is not iterable. *)
Definition py_iter (v : json) : option (list json) :=
  match v with
  | JArr items => Some items
  | JObj fields => Some (map (fun kv => JStr (fst kv)) fields)
  | JStr s => Some (map JStr (code_points s))
  | JNull | JBool _ | JNum _ => None
  end.

(** The loop of [__get_merged_pages], lines 136-137: [merged += p] for
    every page. *)
Fixpoint merge_pages (merged : list json) (pages : list json)
    : option (list json) :=
  match pages with
  | [] => Some merged
  | p :: rest =>
      match py_iter p with
      | Some items => merge_pages (merged ++ items)%list rest
      | None => None
      end
  end.

(** [__get_merged_pages] *)
Definition get_merged_pages (cached_data : cached_doc)
    : outcome (option (list json)) :=
  match doc_json cached_data with
  | Some pages =>
      match py_iter pages with
      | Some ps =>
          match merge_pages [] ps with
          | Some merged => Return (Some merged)
          | None => Raise TypeError
          end
      | None => Raise TypeError
      end
  | None => Return None
  end.

(** [send_zkb_request_json] *)
Definition send_zkb_request_json {datetime : Type}
    (parsedate : string -> option datetime) (c : client) (uri : string)
    (last_modified : option string) (body : option string) (w : world)
    : outcome json * client * world :=
  let '(r, c1, w1) := send_zkb_request_http parsedate c uri last_modified body w in
  match r with
  | Return res =>
      match rsp_json res with
      | Some j => (Return j, c1, w1)
      | None => (Raise JSONDecodeError, c1, w1)
      end
  | Raise e => (Raise e, c1, w1)
  | Pending => (Pending, c1, w1)
  end.

(** ** Measures of a run *)

(** The seconds slept in all. *)
Fixpoint total (ds : list Z) : Z :=
  match ds with
  | [] => 0
  | d :: rest => d + total rest
  end.

(** The outcomes the inner GET loop of lines 150-165 swallows. *)
Fixpoint transient_failures (script : list net_event) : nat :=
  match script with
  | [] => 0
  | NetConnectionError :: rest => S (transient_failures rest)
  | NetTimeout :: rest => S (transient_failures rest)
  | _ :: rest => transient_failures rest
  end.

(** Retries the status tests of lines 203-225 still allow. *)
Definition status_budget (l : locals) : Z :=
  Z.max 0 (attempts_to_reconnect - proxy_error_times l)
  + Z.max 0 (attempts_to_reconnect - throttle_error_times l).

(** Requests a call can still issue: one, plus the status retries, and for
    a POST as much again after each reconnect that is left. *)
Definition request_budget (body : option string) (l : locals) : Z :=
  match body with
  | None => status_budget l + 1
  | Some _ =>
      Z.max 0 (attempts_to_reconnect - http_connection_times l) * 11
      + status_budget l + 1
  end.

(** Seconds a call can still sleep: the 503 delays not yet used,
    [2 * (p + 1) + ... + 10], five seconds per 520 retry left, and for a
    POST one second and a fresh set of both per reconnect left. *)
Definition sleep_budget (body : option string) (l : locals) : Z :=
  Z.max 0 (30 - proxy_error_times l * (proxy_error_times l + 1))
  + 5 * Z.max 0 (attempts_to_reconnect - throttle_error_times l)
  + match body with
    | None => 0
    | Some _ => Z.max 0 (attempts_to_reconnect - http_connection_times l) * 56
    end.

(** A 502 or 504 answer the loop gets past the logger block with. *)
Definition gateway_error {datetime : Type}
    (parsedate : string -> option datetime) (res : response) : Prop :=
  (status_code res = 502 \/ status_code res = 504) /\ loggable parsedate res.

(** A 520 answer the retry branch of lines 216-225 goes through. *)
Definition retryable_520 {datetime : Type}
    (parsedate : string -> option datetime) (res : response) : Prop :=
  status_code res = 520 /\ is_Some (rsp_json res) /\ loggable parsedate res.

(** A cache file as [__dump_cache_into_file] is called in this program:
    both keys, and an ["Http-Error"] of 403 or 404 only beside a [null]
    payload. *)
Definition doc_ok (d : cached_doc) : Prop :=
  exists h j,
    doc_headers d = Some h /\ doc_json d = Some j
    /\ forall code, ch_http_error h = Some code ->
                    j = JNull /\ (code = 403 \/ code = 404).

Definition store_ok (fs : gmap string cached_doc) : Prop :=
  forall f d, fs !! f = Some d -> doc_ok d.

(** ** The loop as a relation *)

Section Runs.

Context {datetime : Type}.
Variable parsedate : string -> option datetime.
Variable uri : string.
Variable body : option string.

(** The runs of [request_loop], one rule per way through the loop body of
    lines 143-249.  In every rule the request is issued first: the locals
    advance, the session is acquired and the request is traced. *)
Inductive loop_run
  : list net_event -> client -> locals -> world ->
    outcome response * client * world -> Prop :=
| run_pending c l w :
    loop_run [] c l w
      (Pending, acquire c, set_net [] (emit (IoSend (issued uri body c l)) w))
| run_get_again ev rest c l w out :
    body = None ->
    ev = NetConnectionError \/ ev = NetTimeout ->
    loop_run rest (acquire c) (advance body l)
      (emit (IoSend (issued uri body c l)) w) out ->
    loop_run (ev :: rest) c l w out
| run_reconnect rest c l w out :
    is_Some body ->
    http_connection_times l < attempts_to_reconnect ->
    loop_run rest (acquire c) (reconnect (advance body l))
      (emit (IoSleep 1) (emit (IoSend (issued uri body c l)) w)) out ->
    loop_run (NetConnectionError :: rest) c l w out
| run_connection_error rest c l w :
    is_Some body ->
    attempts_to_reconnect <= http_connection_times l ->
    loop_run (NetConnectionError :: rest) c l w
      (Raise ConnectionError, acquire c,
       set_net rest (emit (IoSend (issued uri body c l)) w))
| run_timeout rest c l w :
    is_Some body ->
    loop_run (NetTimeout :: rest) c l w
      (Raise Timeout, acquire c,
       set_net rest (emit (IoSend (issued uri body c l)) w))
| run_failure rest c l w :
    loop_run (NetFailure :: rest) c l w
      (Raise RequestException, acquire c,
       set_net rest (emit (IoSend (issued uri body c l)) w))
| run_log_error res rest c l w e :
    log_response parsedate res (acquire c) = inl e ->
    loop_run (NetResponse res :: rest) c l w
      (Raise e, acquire c,
       set_net rest (emit (IoSend (issued uri body c l)) w))
| run_gateway res rest c l w c2 out :
    log_response parsedate res (acquire c) = inr c2 ->
    status_code res = 502 \/ status_code res = 504 ->
    proxy_error_times l < attempts_to_reconnect ->
    loop_run rest c2 (incr_proxy_error_times (advance body l))
      (emit (IoSend (issued uri body c l)) w) out ->
    loop_run (NetResponse res :: rest) c l w out
| run_unavailable res rest c l w c2 out :
    log_response parsedate res (acquire c) = inr c2 ->
    status_code res = 503 ->
    proxy_error_times l < attempts_to_reconnect ->
    is_Some (rsp_json res) ->
    loop_run rest c2 (incr_proxy_error_times (advance body l))
      (emit (IoSleep (2 * (proxy_error_times l + 1)))
         (emit (IoSend (issued uri body c l)) w)) out ->
    loop_run (NetResponse res :: rest) c l w out
| run_throttled res rest c l w c2 out :
    log_response parsedate res (acquire c) = inr c2 ->
    status_code res = 520 ->
    throttle_error_times l < attempts_to_reconnect ->
    is_Some (rsp_json res) ->
    loop_run rest c2 (incr_throttle_error_times (advance body l))
      (emit (IoSleep 5) (emit (IoSend (issued uri body c l)) w)) out ->
    loop_run (NetResponse res :: rest) c l w out
| run_not_json res rest c l w c2 :
    log_response parsedate res (acquire c) = inr c2 ->
    (status_code res = 503 /\ proxy_error_times l < attempts_to_reconnect)
    \/ (status_code res = 520
        /\ throttle_error_times l < attempts_to_reconnect) ->
    rsp_json res = None ->
    loop_run (NetResponse res :: rest) c l w
      (Raise JSONDecodeError, c2,
       set_net rest (emit (IoSend (issued uri body c l)) w))
| run_finish res rest c l w c2 :
    log_response parsedate res (acquire c) = inr c2 ->
    (In (status_code res) [502; 503; 504] ->
     attempts_to_reconnect <= proxy_error_times l) ->
    (status_code res = 520 ->
     attempts_to_reconnect <= throttle_error_times l) ->
    loop_run (NetResponse res :: rest) c l w
      (finish res, c2,
       set_net rest (emit (IoSend (issued uri body c l)) w)).

End Runs.

(** * Properties *)

(** ** Cache keys *)

Lemma last1_snoc (s : string) (c : ascii) :
  PyStr.last1 (s +:+ String c "") = String c "".
Proof.
  induction s as [|d s IH]; [reflexivity|].
  simpl. rewrite IH. destruct s; reflexivity.
Qed.

Lemma drop_last_snoc (s : string) (c : ascii) :
  PyStr.drop_last (s +:+ String c "") = s.
Proof.
  induction s as [|d s IH]; [reflexivity|].
  simpl. rewrite IH. destruct s; reflexivity.
Qed.

Lemma get_f_name_in_slash (dir p : string) :
  String.eqb (PyStr.last1 p) "/" = false ->
  get_f_name_in dir (p +:+ "/") = get_f_name_in dir p.
Proof.
  intros Hp. unfold get_f_name_in.
  rewrite last1_snoc, drop_last_snoc, Hp. reflexivity.
Qed.

Example get_f_name_example :
  get_f_name Sample.online "/corporationID/787611831/"
  = "/tmp/.zkb_cache/.cache__corporationID_787611831.json".
Proof. reflexivity. Qed.

Example get_f_name_query :
  get_f_name_in "d" "kills/?a=1&b=2" = "d/.cache_kills_a-1.b-2.json".
Proof. reflexivity. Qed.

(** ** The transport loop *)

Lemma writes_app (t1 t2 : list io_event) :
  writes (t1 ++ t2)%list = (writes t1 ++ writes t2)%list.
Proof.
  induction t1 as [|[rq|d|f] t1 IH]; simpl; [reflexivity| | |]; rewrite ?IH; reflexivity.
Qed.

Lemma sleeps_app (t1 t2 : list io_event) :
  sleeps (t1 ++ t2)%list = (sleeps t1 ++ sleeps t2)%list.
Proof.
  induction t1 as [|[rq|d|f] t1 IH]; simpl; [reflexivity| | |]; rewrite ?IH; reflexivity.
Qed.

Lemma sends_app (t1 t2 : list io_event) :
  sends (t1 ++ t2)%list = (sends t1 ++ sends t2)%list.
Proof.
  induction t1 as [|[rq|d|f] t1 IH]; simpl; [reflexivity| | |]; rewrite ?IH; reflexivity.
Qed.

Lemma extends_set_net (script : list net_event) (w : world) :
  extends w (set_net script w) [].
Proof. split; [reflexivity | symmetry; apply app_nil_r]. Qed.

Lemma extends_emit (ev : io_event) (w : world) : extends w (emit ev w) [ev].
Proof. split; reflexivity. Qed.

Lemma extends_emit2 (e1 e2 : io_event) (w : world) :
  extends w (emit e2 (emit e1 w)) [e1; e2].
Proof. split; [reflexivity|]. simpl. rewrite <- app_assoc. reflexivity. Qed.

Lemma extends_trans (w1 w2 w3 : world) (t1 t2 : list io_event) :
  extends w1 w2 t1 -> extends w2 w3 t2 -> extends w1 w3 (t1 ++ t2)%list.
Proof.
  intros [Hf1 Ht1] [Hf2 Ht2]. split; [congruence|].
  rewrite Ht2, Ht1. symmetry. apply app_assoc.
Qed.

Section Transport.

Context {datetime : Type}.
Variable parsedate : string -> option datetime.

Lemma issued_uri uri body (c : @client datetime) l :
  rq_uri (issued uri body c l) = uri.
Proof. destruct body; reflexivity. Qed.

(** One turn of [request_loop] in hypothesis [H], split by the outcome of
    the request, the kind of request and every test of the loop body. *)
Ltac loop_step H ev body :=
  simpl in H; destruct ev as [| | |?]; destruct body as [?|]; simpl in H;
  repeat (case_match; simpl in H).

(** Every turn of the loop starts with a request; the loop never writes a
    cache file. *)
Lemma request_loop_extends script uri body c l w r c' w' :
  request_loop parsedate script uri body c l w = (r, c', w') ->
  exists tr, extends w w' (IoSend (issued uri body c l) :: tr)
             /\ writes tr = [].
Proof.
  revert c l w r c' w'.
  induction script as [|ev rest IH]; intros c l w r c' w' H.
  - simpl in H. injection H as <- <- <-. exists [].
    split; [|reflexivity].
    destruct body; split; reflexivity.
  - assert (Hstep : forall c1 l1 w1 tr0,
               extends w w1 (IoSend (issued uri body c l) :: tr0) ->
               writes tr0 = [] ->
               request_loop parsedate rest uri body c1 l1 w1 = (r, c', w') ->
               exists tr, extends w w' (IoSend (issued uri body c l) :: tr)
                          /\ writes tr = []).
    { intros c1 l1 w1 tr0 Hext Hw0 Hrec.
      destruct (IH _ _ _ _ _ _ Hrec) as (tr & Hext' & Hw).
      exists (tr0 ++ IoSend (issued uri body c1 l1) :: tr)%list. split.
      - apply (extends_trans _ _ _ _ _ Hext Hext').
      - rewrite writes_app, Hw0. simpl. exact Hw. }
    assert (Hstop : forall w1,
               extends w w1 [IoSend (issued uri body c l)] ->
               w' = set_net rest w1 ->
               exists tr, extends w w' (IoSend (issued uri body c l) :: tr)
                          /\ writes tr = []).
    { intros w1 Hext ->. exists []. split; [|reflexivity].
      apply (extends_trans _ _ _ _ [] Hext (extends_set_net _ _)). }
    loop_step H ev body;
      try (injection H as <- <- <-; eapply Hstop; [apply extends_emit|reflexivity]);
      try (eapply Hstep; [| |exact H]; [apply extends_emit|reflexivity]).
    all: try (eapply (Hstep _ _ _ [IoSleep _]); [| |exact H];
              [apply extends_emit2|reflexivity]).
Qed.

Lemma log_response_loggable res (c : @client datetime) :
  loggable parsedate res ->
  log_response parsedate res c = inr (observe parsedate res c).
Proof.
  unfold loggable, log_response, observe.
  destruct (logger c), (h_last_modified res) as [url_time|]; try reflexivity.
  intros [t ->]. reflexivity.
Qed.

Lemma log_response_logger res (c c2 : @client datetime) :
  log_response parsedate res c = inr c2 -> logger c2 = logger c.
Proof.
  unfold log_response.
  destruct (logger c) eqn:Hl; [|intros [= <-]; exact Hl].
  destruct (h_last_modified res) as [url_time|]; [|intros [= <-]; exact Hl].
  destruct (parsedate url_time); [|discriminate].
  intros [= <-]. exact Hl.
Qed.

Lemma log_response_silent res (c c2 : @client datetime) :
  logger c = false -> log_response parsedate res c = inr c2 -> c2 = c.
Proof. unfold log_response. intros ->. congruence. Qed.

Lemma log_response_records res (c c2 : @client datetime) url_time :
  logger c = true -> h_last_modified res = Some url_time ->
  log_response parsedate res c = inr c2 ->
  c_last_modified c2 = parsedate url_time /\ is_Some (parsedate url_time).
Proof.
  unfold log_response. intros -> ->.
  destruct (parsedate url_time) as [t|]; [|discriminate].
  intros [= <-]. split; [reflexivity | eexists; reflexivity].
Qed.

Lemma finish_return res res' :
  finish res = Return res' -> res' = res /\ raises_for_status res = false.
Proof.
  unfold finish. destruct (raises_for_status res); [|intros [= <-]; auto].
  destruct (rsp_json res); discriminate.
Qed.

(** With the logger on, the timestamp the client holds after a request
    that returns is the parsed [Last-Modified] of the response returned. *)
Lemma request_loop_records script uri body (c : @client datetime) l w res c' w' url_time :
  request_loop parsedate script uri body c l w = (Return res, c', w') ->
  logger c = true ->
  h_last_modified res = Some url_time ->
  c_last_modified c' = parsedate url_time /\ is_Some (parsedate url_time).
Proof.
  revert c l w.
  induction script as [|ev rest IH]; intros c l w H Hlog Hlm; [discriminate|].
  assert (Hacq : logger (acquire c) = true).
  { unfold acquire. destruct (keep_alive c); exact Hlog. }
  loop_step H ev body; try discriminate;
    try (eapply IH; [exact H| |exact Hlm]; try exact Hacq;
         erewrite log_response_logger by eassumption; exact Hacq).
  all: injection H as Hfin <- <-;
    apply finish_return in Hfin as [-> _];
    eapply log_response_records; eassumption.
Qed.

(** With the logger off the loop never assigns [self.__last_modified]. *)
Lemma request_loop_silent script uri body (c : @client datetime) l w r c' w' :
  request_loop parsedate script uri body c l w = (r, c', w') ->
  logger c = false ->
  c_last_modified c' = c_last_modified c.
Proof.
  revert c l w.
  induction script as [|ev rest IH]; intros c l w H Hlog.
  - injection H as <- <- <-. unfold acquire. destruct (keep_alive c); reflexivity.
  - assert (Hacq : logger (acquire c) = false /\
                   c_last_modified (acquire c) = c_last_modified c).
    { unfold acquire. destruct (keep_alive c); split; auto. }
    destruct Hacq as [Hacq Hsame].
    loop_step H ev body;
      try (injection H as <- <- <-);
      repeat match goal with
        | Hl : log_response _ _ _ = inr _ |- _ =>
            apply (log_response_silent _ _ _ Hacq) in Hl; subst
        end;
      try exact Hsame;
      try (rewrite <- Hsame; eapply IH; [exact H|exact Hacq]).
Qed.

Lemma double_is_not_one (p : Z) : (2 * p =? 1) = false.
Proof. apply Z.eqb_neq. lia. Qed.

Lemma advance_counters body l :
  http_connection_times (advance body l) = http_connection_times l
  /\ proxy_error_times (advance body l) = proxy_error_times l
  /\ throttle_error_times (advance body l) = throttle_error_times l.
Proof. destruct body; repeat split. Qed.

(** The connection retry of lines 228-240 sleeps at most
    [attempts_to_reconnect] times in one call, whatever the network does;
    a GET never gets there. *)
Lemma request_loop_reconnect_bound script uri body (c : @client datetime) l w r c' w' :
  request_loop parsedate script uri body c l w = (r, c', w') ->
  exists tr, extends w w' tr
    /\ Z.of_nat (reconnect_sleeps tr)
        <= Z.max 0 (attempts_to_reconnect - http_connection_times l)
    /\ (body = None -> reconnect_sleeps tr = 0%nat).
Proof.
  revert c l w r c' w'.
  induction script as [|ev rest IH]; intros c l w r c' w' H.
  - injection H as <- <- <-. exists [IoSend (issued uri body c l)].
    split; [split; reflexivity|]. simpl. split; [lia|reflexivity].
  - destruct (advance_counters body l) as (Hc & _ & _).
    assert (Hstep : forall c1 l1 w1 tr0,
               extends w w1 tr0 ->
               Z.of_nat (reconnect_sleeps tr0)
               + Z.max 0 (attempts_to_reconnect - http_connection_times l1)
               <= Z.max 0 (attempts_to_reconnect - http_connection_times l) ->
               (body = None -> reconnect_sleeps tr0 = 0%nat) ->
               request_loop parsedate rest uri body c1 l1 w1 = (r, c', w') ->
               exists tr, extends w w' tr
                 /\ Z.of_nat (reconnect_sleeps tr)
                     <= Z.max 0 (attempts_to_reconnect - http_connection_times l)
                 /\ (body = None -> reconnect_sleeps tr = 0%nat)).
    { intros c1 l1 w1 tr0 Hext Hle Hget Hrec.
      destruct (IH _ _ _ _ _ _ Hrec) as (tr & Hext' & Hle' & Hget').
      exists (tr0 ++ tr)%list. split; [apply (extends_trans _ _ _ _ _ Hext Hext')|].
      assert (Happ : reconnect_sleeps (tr0 ++ tr)
                     = (reconnect_sleeps tr0 + reconnect_sleeps tr)%nat).
      { clear. induction tr0 as [|[rq|d|f] tr0 IHt]; simpl; lia. }
      rewrite Happ. split; [lia|].
      intros Hb. rewrite (Hget Hb), (Hget' Hb). reflexivity. }
    assert (Hstop : forall w1,
               extends w w1 [IoSend (issued uri body c l)] ->
               w' = set_net rest w1 ->
               exists tr, extends w w' tr
                 /\ Z.of_nat (reconnect_sleeps tr)
                     <= Z.max 0 (attempts_to_reconnect - http_connection_times l)
                 /\ (body = None -> reconnect_sleeps tr = 0%nat)).
    { intros w1 Hext ->. exists [IoSend (issued uri body c l)].
      split; [apply (extends_trans _ _ _ _ [] Hext (extends_set_net _ _))|].
      simpl. split; [lia|reflexivity]. }
    loop_step H ev body;
      try (injection H as <- <- <-; eapply Hstop; [apply extends_emit|reflexivity]).
    all: try (eapply (Hstep _ _ _ [IoSend _]); [apply extends_emit| | |exact H];
              [simpl in *; lia|reflexivity]).
    all: try (eapply (Hstep _ _ _ [IoSend _; IoSleep _]); [apply extends_emit2| | |exact H];
              [simpl in *; try lia|try reflexivity; try discriminate]).
    all: cbn [reconnect_sleeps]; rewrite double_is_not_one;
      first [lia | intros _; reflexivity].
Qed.

(** One 503 with a JSON body below the bound: sleep, then ask again. *)
Lemma request_loop_503 res rest uri body (c : @client datetime) l w :
  retryable_503 parsedate res ->
  proxy_error_times l < attempts_to_reconnect ->
  request_loop parsedate (NetResponse res :: rest) uri body c l w
  = request_loop parsedate rest uri body
      (observe parsedate res (acquire c))
      (incr_proxy_error_times (advance body l))
      (emit (IoSleep (2 * (proxy_error_times l + 1)))
         (emit (IoSend (issued uri body c l)) w)).
Proof.
  intros (Hs & [j Hj] & Hl) Hp.
  destruct (advance_counters body l) as (_ & Hpe & _).
  cbn [request_loop].
  rewrite (log_response_loggable _ _ Hl), Hs, Hpe, Hj.
  rewrite (proj2 (Z.ltb_lt _ _) Hp). cbn [incr_proxy_error_times proxy_error_times].
  rewrite Hpe. reflexivity.
Qed.

(** One 503 whose body is not JSON below the bound: the [print(res.json())]
    of line 210 raises, and the request is over. *)
Lemma request_loop_503_not_json res rest uri body (c : @client datetime) l w :
  status_code res = 503 ->
  rsp_json res = None ->
  loggable parsedate res ->
  proxy_error_times l < attempts_to_reconnect ->
  request_loop parsedate (NetResponse res :: rest) uri body c l w
  = (Raise JSONDecodeError, observe parsedate res (acquire c),
     set_net rest (emit (IoSend (issued uri body c l)) w)).
Proof.
  intros Hs Hj Hl Hp.
  destruct (advance_counters body l) as (_ & Hpe & _).
  cbn [request_loop].
  rewrite (log_response_loggable _ _ Hl), Hs, Hpe, Hj.
  rewrite (proj2 (Z.ltb_lt _ _) Hp). reflexivity.
Qed.

(** A 503 with a JSON body once the bound is reached: [raise_for_status]. *)
Lemma request_loop_503_exhausted res rest uri body (c : @client datetime) l w :
  retryable_503 parsedate res ->
  attempts_to_reconnect <= proxy_error_times l ->
  request_loop parsedate (NetResponse res :: rest) uri body c l w
  = (Raise (HTTPError 503), observe parsedate res (acquire c),
     set_net rest (emit (IoSend (issued uri body c l)) w)).
Proof.
  intros (Hs & [j Hj] & Hl) Hp.
  destruct (advance_counters body l) as (_ & Hpe & _).
  cbn [request_loop].
  rewrite (log_response_loggable _ _ Hl), Hs, Hpe.
  rewrite (proj2 (Z.ltb_ge _ _) Hp).
  unfold finish, raises_for_status. rewrite Hs, Hj. reflexivity.
Qed.

(** A run of 503 answers that uses up what is left of the bound, and one
    more: every answer but the last is followed by its sleep, the last
    one is raised. *)
Lemma request_loop_503_run rs res rest uri body :
  forall (c : @client datetime) l w,
    Forall (retryable_503 parsedate) rs ->
    retryable_503 parsedate res ->
    proxy_error_times l + Z.of_nat (length rs) = attempts_to_reconnect ->
    exists c' w' tr,
      request_loop parsedate (map NetResponse rs ++ NetResponse res :: rest)
        uri body c l w = (Raise (HTTPError 503), c', w')
      /\ extends w w' tr /\ net w' = rest
      /\ sleeps tr = backoff (proxy_error_times l) (length rs)
      /\ length (sends tr) = S (length rs).
Proof.
  induction rs as [|r rs IH]; intros c l w Hrs Hres Hlen.
  - simpl in Hlen. exists (observe parsedate res (acquire c)).
    eexists. exists [IoSend (issued uri body c l)].
    split; [apply request_loop_503_exhausted; [exact Hres|lia]|].
    repeat split.
  - apply Forall_cons in Hrs as [Hr Hrs]. simpl length in Hlen.
    cbn [map app]. rewrite request_loop_503 by (try exact Hr; lia).
    destruct (advance_counters body l) as (_ & Hpe & _).
    edestruct (IH (observe parsedate r (acquire c))
                  (incr_proxy_error_times (advance body l))) as
      (c' & w' & tr & Heq & Hext & Hnet & Hsl & Hsn);
      [exact Hrs|exact Hres| |].
    { cbn [incr_proxy_error_times proxy_error_times]. rewrite Hpe. lia. }
    exists c', w', ([IoSend (issued uri body c l);
                     IoSleep (2 * (proxy_error_times l + 1))] ++ tr)%list.
    split; [exact Heq|]. split; [|split; [exact Hnet|]].
    + apply (extends_trans _ _ _ _ _ (extends_emit2 _ _ _) Hext).
    + cbn [incr_proxy_error_times proxy_error_times] in Hsl.
      rewrite Hpe in Hsl.
      simpl. rewrite Hsl, Hsn. split; reflexivity.
Qed.

(** A GET answers connection errors by asking again at once, as often as
    they come. *)
Lemma request_loop_get_reconnects (n : nat) res rest uri :
  forall (c : @client datetime) l w,
    loggable parsedate res ->
    raises_for_status res = false ->
    exists c' w' tr,
      request_loop parsedate
        (repeat NetConnectionError n ++ NetResponse res :: rest)
        uri None c l w = (Return res, c', w')
      /\ extends w w' tr /\ net w' = rest
      /\ sleeps tr = [] /\ length (sends tr) = S n.
Proof.
  intros c l w Hl Hok. revert c l w.
  induction n as [|n IH]; intros c l w.
  - exists (observe parsedate res (acquire c)).
    eexists. exists [IoSend (issued uri None c l)].
    split.
    { cbn [repeat app request_loop].
      rewrite (log_response_loggable _ _ Hl).
      assert (Hne : (status_code res =? 502) = false
                    /\ (status_code res =? 504) = false
                    /\ (status_code res =? 503) = false
                    /\ (status_code res =? 520) = false)
        by (unfold raises_for_status in Hok; lia).
      destruct Hne as (-> & -> & -> & ->). cbn [orb andb].
      unfold finish. rewrite Hok. reflexivity. }
    repeat split.
  - destruct (IH (acquire c) (advance None l)
                 (emit (IoSend (issued uri None c l)) w))
      as (c' & w' & tr & Heq & Hext & Hnet & Hsl & Hsn).
    exists c', w', ([IoSend (issued uri None c l)] ++ tr)%list.
    split; [exact Heq|]. split; [|split; [exact Hnet|]].
    + apply (extends_trans _ _ _ _ _ (extends_emit _ _) Hext).
    + simpl. rewrite Hsl, Hsn. split; reflexivity.
Qed.

Lemma send_extends (c : @client datetime) uri lm body w r c' w' :
  send_zkb_request_http parsedate c uri lm body w = (r, c', w') ->
  exists rq tr, extends w w' (IoSend rq :: tr)
                /\ rq_uri rq = uri /\ writes tr = [].
Proof.
  unfold send_zkb_request_http. intros H.
  apply request_loop_extends in H as (tr & Hext & Hw).
  eexists _, tr. split; [exact Hext|]. split; [apply issued_uri|exact Hw].
Qed.

(** With the logger on, a request that returns leaves the parsed
    [Last-Modified] of its response in the client. *)
Lemma send_records (c : @client datetime) uri lm body w res c' w' url_time :
  send_zkb_request_http parsedate c uri lm body w = (Return res, c', w') ->
  logger c = true ->
  h_last_modified res = Some url_time ->
  c_last_modified c' = parsedate url_time /\ is_Some (parsedate url_time).
Proof.
  unfold send_zkb_request_http. intros H Hlog Hlm.
  eapply request_loop_records; [exact H|exact Hlog|exact Hlm].
Qed.

(** With the logger off, a request leaves no timestamp in the client,
    whatever the responses carried. *)
Lemma send_silent (c : @client datetime) uri lm body w r c' w' :
  send_zkb_request_http parsedate c uri lm body w = (r, c', w') ->
  logger c = false ->
  c_last_modified c' = None.
Proof.
  unfold send_zkb_request_http. intros H Hlog.
  apply request_loop_silent in H; [exact H|exact Hlog].
Qed.

(** Six 503 answers with JSON bodies in a row, from the start of a
    request: five retries after 2, 4, 6, 8 and 10 seconds, and the sixth
    answer is raised as [HTTPError]. *)
Lemma send_six_retryable_503 rs res rest (c : @client datetime) uri lm body w :
  length rs = 5%nat ->
  Forall (retryable_503 parsedate) rs ->
  retryable_503 parsedate res ->
  exists c' w' tr,
    send_zkb_request_http parsedate c uri lm body
      (set_net (map NetResponse rs ++ NetResponse res :: rest) w)
    = (Raise (HTTPError 503), c', w')
    /\ extends w w' tr /\ net w' = rest
    /\ sleeps tr = [2; 4; 6; 8; 10]
    /\ length (sends tr) = 6%nat.
Proof.
  intros Hlen Hrs Hres. unfold send_zkb_request_http. cbn [net set_net].
  edestruct (request_loop_503_run rs res rest uri body
               (set_c_last_modified None c) (initial_locals c lm body)
               (set_net (map NetResponse rs ++ NetResponse res :: rest) w))
    as (c' & w' & tr & Heq & Hext & Hnet & Hsl & Hsn);
    [exact Hrs|exact Hres|rewrite Hlen; reflexivity|].
  exists c', w', tr. rewrite Hlen in Hsl, Hsn.
  repeat split; try assumption; apply Hext.
Qed.

(** The two connection retries of the code.  A POST retries a connection
    error after a sleep of one second and at most five times in a call:
    any POST run holds at most five such sleeps, and the sixth connection
    error in a row is raised to the caller (lines 228-240).  A GET asks
    again at once in its inner loop (lines 162-163), without sleeping and
    without a bound: after any number [n] of connection errors the answer
    that follows is returned. *)
Theorem connection_retry_policy (c : @client datetime) uri lm data w
    script r c' w' (n : nat) res :
  send_zkb_request_http parsedate c uri lm (Some data) (set_net script w)
  = (r, c', w') ->
  loggable parsedate res ->
  raises_for_status res = false ->
  (exists tr, extends w w' tr /\ (reconnect_sleeps tr <= 5)%nat)
  /\ (forall rest, exists c6 w6 tr6,
        send_zkb_request_http parsedate c uri lm (Some data)
          (set_net (repeat NetConnectionError 6 ++ rest) w)
        = (Raise ConnectionError, c6, w6)
        /\ extends w w6 tr6 /\ net w6 = rest
        /\ sleeps tr6 = [1; 1; 1; 1; 1]
        /\ length (sends tr6) = 6%nat)
  /\ (forall rest, exists cn wn trn,
        send_zkb_request_http parsedate c uri lm None
          (set_net (repeat NetConnectionError n ++ NetResponse res :: rest) w)
        = (Return res, cn, wn)
        /\ extends w wn trn /\ net wn = rest
        /\ sleeps trn = []
        /\ length (sends trn) = S n).
Proof.
  intros Hrun Hl Hok. split; [|split].
  - unfold send_zkb_request_http in Hrun.
    apply request_loop_reconnect_bound in Hrun as (tr & Hext & Hle & _).
    exists tr. split; [exact Hext|].
    cbn in Hle. unfold attempts_to_reconnect in Hle. lia.
  - intros rest. unfold send_zkb_request_http. cbn [net set_net].
    eexists _, _, _. split; [cbn; reflexivity|].
    split; [split; [reflexivity|]|].
    + cbn [trace emit set_net]. rewrite <- !app_assoc. reflexivity.
    + repeat split.
  - intros rest. unfold send_zkb_request_http. cbn [net set_net].
    destruct (request_loop_get_reconnects n res rest uri
                (set_c_last_modified None c) (initial_locals c lm None)
                (set_net (repeat NetConnectionError n ++ NetResponse res :: rest) w)
                Hl Hok)
      as (cn & wn & trn & Heq & Hext & Hnet & Hsl & Hsn).
    exists cn, wn, trn. repeat split; try assumption; apply Hext.
Qed.

End Transport.

(** ** The cache coordinator *)

Section Coordinator.

Context {datetime : Type}.
Variable parsedate : string -> option datetime.

(** A call that does not end in lines 160-167 is the call of its mode. *)
Lemma get_zkb_data_by_mode (self : @interface datetime) url body trust w :
  stops_at_trust_cache self trust (take_cache_from_file self url w) = false ->
  get_zkb_data parsedate self url body trust w
  = fetch_by_mode parsedate (take_cache_from_file self url w) url body
      (reset self) w.
Proof.
  unfold get_zkb_data, stops_at_trust_cache.
  destruct (take_cache_from_file self url w) as [d|]; [|reflexivity].
  cbn [reset offline_mode].
  destruct (negb (offline_mode self) && trust && has_json d); [|reflexivity].
  destruct (doc_headers d) as [h|]; [|discriminate].
  destruct (ch_http_error h); [reflexivity|discriminate].
Qed.

Lemma serve_cached_ok d h (self : @interface datetime) w :
  timestamp_ok parsedate h ->
  last_modified self = None ->
  exists self',
    serve_cached parsedate d h self w = (Return (get_json d), self', w)
    /\ last_modified self' = stored_timestamp parsedate h
    /\ is_last_data_updated self' = is_last_data_updated self
    /\ offline_mode self' = offline_mode self
    /\ cache_dir self' = cache_dir self.
Proof.
  unfold timestamp_ok, serve_cached, stored_timestamp. intros Hok Hnone.
  destruct (ch_last_modified h) as [url_time|].
  - destruct Hok as [t ->]. eexists. split; [reflexivity|]. repeat split.
  - exists self. split; [reflexivity|]. repeat split. exact Hnone.
Qed.

Lemma serve_cached_return d h (self : @interface datetime) w v self' w' :
  serve_cached parsedate d h self w = (Return v, self', w') ->
  last_modified self = None ->
  v = get_json d /\ w' = w
  /\ last_modified self' = stored_timestamp parsedate h.
Proof.
  unfold serve_cached, stored_timestamp. intros H Hnone.
  destruct (ch_last_modified h) as [url_time|].
  - destruct (parsedate url_time) as [t|]; [|discriminate].
    injection H as <- <- <-. repeat split.
  - injection H as <- <- <-. repeat split. exact Hnone.
Qed.

(** An [HTTPError] of the transport that is neither 403 nor 404 leaves the
    [try] of lines 191-214 by the end of its handler: the function
    returns [None]. *)
Lemma online_fetch_swallows cached url body (self : @interface datetime) w code c w1 :
  send_zkb_request_http parsedate (zkb_client self) (server_url +:+ url)
    (conditional_timestamp cached) body w = (Raise (HTTPError code), c, w1) ->
  code <> 403 -> code <> 404 ->
  online_fetch parsedate cached url body self w
  = (Return JNull, set_client c self, w1)
  /\ files w1 = files w /\ writes (trace w1) = writes (trace w).
Proof.
  intros Hsend H403 H404. unfold online_fetch. rewrite Hsend.
  apply Z.eqb_neq in H403, H404. rewrite H403, H404.
  split; [reflexivity|].
  apply send_extends in Hsend as (rq & tr & [Hf Ht] & _ & Hw).
  split; [exact Hf|].
  rewrite Ht, writes_app. simpl. rewrite Hw. apply app_nil_r.
Qed.

Lemma get_zkb_data_swallows (self : @interface datetime) url body trust w code c w1 :
  offline_mode self = false ->
  stops_at_trust_cache self trust (take_cache_from_file self url w) = false ->
  send_zkb_request_http parsedate (zkb_client self) (server_url +:+ url)
    (conditional_timestamp (take_cache_from_file self url w)) body w
  = (Raise (HTTPError code), c, w1) ->
  code <> 403 -> code <> 404 ->
  get_zkb_data parsedate self url body trust w
  = (Return JNull, set_client c (reset self), w1)
  /\ files w1 = files w /\ writes (trace w1) = writes (trace w).
Proof.
  intros Hon Hnet Hsend H403 H404.
  rewrite (get_zkb_data_by_mode _ _ _ _ _ Hnet).
  unfold fetch_by_mode. cbn [reset offline_mode]. rewrite Hon.
  apply (online_fetch_swallows _ _ _ (reset self) _ _ _ _ Hsend H403 H404).
Qed.

(** An [HTTPError] 403 or 404 of the transport is written to the cache
    file of the resource and raised again. *)
Lemma online_fetch_sticks cached url body (self : @interface datetime) w code c w1 :
  send_zkb_request_http parsedate (zkb_client self) (server_url +:+ url)
    (conditional_timestamp cached) body w = (Raise (HTTPError code), c, w1) ->
  code = 403 \/ code = 404 ->
  online_fetch parsedate cached url body self w
  = (Raise (HTTPError code), set_client c self,
     write_file (get_f_name (set_client c self) url) (sticky_document code) w1).
Proof.
  intros Hsend Hcode. unfold online_fetch. rewrite Hsend.
  destruct Hcode as [-> | ->]; reflexivity.
Qed.


(** Offline, a stored error is raised again and nothing changes. *)
Lemma offline_fetch_sticky (off : @interface datetime) url body trust w code :
  offline_mode off = true ->
  take_cache_from_file off url w = Some (sticky_document code) ->
  get_zkb_data parsedate off url body trust w = (Raise (HTTPError code), reset off, w).
Proof.
  intros Hoff Hdoc. rewrite get_zkb_data_by_mode.
  - unfold fetch_by_mode. cbn [reset offline_mode]. rewrite Hoff, Hdoc. reflexivity.
  - rewrite Hdoc. unfold stops_at_trust_cache. rewrite Hoff. reflexivity.
Qed.

Lemma fetch_all_sticky calls : forall (off : @interface datetime) url w code,
  offline_mode off = true ->
  take_cache_from_file off url w = Some (sticky_document code) ->
  Forall (fun r => r = Raise (HTTPError code)) (fetch_all parsedate calls off url w).
Proof.
  induction calls as [|[[body trust] script] calls IH]; intros off url w code Hoff Hdoc.
  - constructor.
  - cbn [fetch_all].
    rewrite (offline_fetch_sticky off url body trust (set_net script w) code Hoff Hdoc).
    constructor; [reflexivity|].
    apply IH; [exact Hoff|exact Hdoc].
Qed.

(** C4.  When an online fetch reaches the network and the transport raises
    [HTTPError] 403 or 404, the call raises that same error, and the cache
    file of the resource now holds the document [{"Http-Error": code}] with
    a [null] payload (one write, of that file).  From then on every fetch of
    the resource by an offline instance on the same cache directory raises
    [HTTPError] with the stored code. *)
Theorem C4_sticky_error_persisted_and_replayed (self : @interface datetime)
    url body trust w code c w1 :
  offline_mode self = false ->
  stops_at_trust_cache self trust (take_cache_from_file self url w) = false ->
  send_zkb_request_http parsedate (zkb_client self) (server_url +:+ url)
    (conditional_timestamp (take_cache_from_file self url w)) body w
  = (Raise (HTTPError code), c, w1) ->
  code = 403 \/ code = 404 ->
  exists self' w',
    get_zkb_data parsedate self url body trust w
    = (Raise (HTTPError code), self', w')
    /\ files w' = <[get_f_name self url := sticky_document code]> (files w)
    /\ writes (trace w') = (writes (trace w) ++ [get_f_name self url])%list
    /\ forall (off : @interface datetime) calls w2,
         offline_mode off = true ->
         cache_dir off = cache_dir self ->
         files w2 = files w' ->
         Forall (fun r => r = Raise (HTTPError code))
           (fetch_all parsedate calls off url w2).
Proof.
  intros Hon Hnet Hsend Hcode.
  rewrite (get_zkb_data_by_mode _ _ _ _ _ Hnet).
  unfold fetch_by_mode. cbn [reset offline_mode]. rewrite Hon.
  rewrite (online_fetch_sticks _ _ _ (reset self) _ _ _ _ Hsend Hcode).
  apply send_extends in Hsend as (rq & tr & [Hf Ht] & _ & Hw).
  eexists _, _. split; [reflexivity|].
  cbn [dump_cache_into_file write_file files trace].
  assert (Hfiles : <[get_f_name (set_client c (reset self)) url :=
                       sticky_document code]> (files w1)
                   = <[get_f_name self url := sticky_document code]> (files w)).
  { rewrite Hf. reflexivity. }
  split; [exact Hfiles|]. split.
  - rewrite writes_app, Ht, writes_app. simpl. rewrite Hw, app_nil_r.
    reflexivity.
  - intros off calls w2 Hoff Hdir Hw2.
    apply fetch_all_sticky; [exact Hoff|].
    unfold take_cache_from_file, get_f_name. rewrite Hw2, Hdir.
    apply lookup_insert_eq.
Qed.

(** C7.  Online, with a cached document for the resource, a 304 answer of
    the transport makes the fetch return the payload of that document; no
    cache file is written and the cache directory is what it was; the
    reported [last_modified] is the timestamp stored in the document. *)
Theorem C7_not_modified_serves_cache (self : @interface datetime)
    url body trust w d h data c w1 :
  offline_mode self = false ->
  take_cache_from_file self url w = Some d ->
  doc_headers d = Some h ->
  timestamp_ok parsedate h ->
  stops_at_trust_cache self trust (Some d) = false ->
  send_zkb_request_http parsedate (zkb_client self) (server_url +:+ url)
    (conditional_timestamp (Some d)) body w = (Return data, c, w1) ->
  status_code data = 304 ->
  exists self',
    get_zkb_data parsedate self url body trust w
    = (Return (get_json d), self', w1)
    /\ last_modified self' = stored_timestamp parsedate h
    /\ is_last_data_updated self' = false
    /\ files w1 = files w
    /\ take_cache_from_file self url w1 = Some d
    /\ writes (trace w1) = writes (trace w).
Proof.
  intros Hon Hdoc Hh Hts Hnet Hsend H304.
  rewrite get_zkb_data_by_mode by (rewrite Hdoc; exact Hnet).
  unfold fetch_by_mode. cbn [reset offline_mode]. rewrite Hon, Hdoc.
  unfold online_fetch. cbn [reset zkb_client]. rewrite Hsend, H304, Hh.
  cbn [Z.eqb Pos.eqb].
  edestruct (serve_cached_ok d h) as (self' & -> & Hlm & Hup & _ & _);
    [exact Hts| |].
  2: { exists self'. split; [reflexivity|]. split; [exact Hlm|].
       split; [rewrite Hup; reflexivity|].
       apply send_extends in Hsend as (rq & tr & [Hf Ht] & _ & Hw).
       split; [exact Hf|]. split.
       - unfold take_cache_from_file in *. rewrite Hf. exact Hdoc.
       - rewrite Ht, writes_app. simpl. rewrite Hw. apply app_nil_r. }
  reflexivity.
Qed.

(** C8.  Online with [fully_trust_cache], a cached document that has a
    ["json"] entry and no ["Http-Error"] is returned at once: the payload is
    the stored one, the world is untouched (no request, no sleep, no write,
    the network script is where it was), and the reported [last_modified]
    is the parsed stored [last-modified] when the document has one. *)
Theorem C8_trust_cache_short_circuit (self : @interface datetime)
    url body w d h :
  offline_mode self = false ->
  take_cache_from_file self url w = Some d ->
  has_json d = true ->
  doc_headers d = Some h ->
  ch_http_error h = None ->
  timestamp_ok parsedate h ->
  exists self',
    get_zkb_data parsedate self url body true w
    = (Return (get_json d), self', w)
    /\ last_modified self'
       = match ch_last_modified h with
         | Some url_time => parsedate url_time
         | None => None
         end
    /\ (forall url_time, ch_last_modified h = Some url_time ->
          exists t, parsedate url_time = Some t
                    /\ last_modified self' = Some t)
    /\ is_last_data_updated self' = false
    /\ offline_mode self' = offline_mode self
    /\ cache_dir self' = cache_dir self
    /\ zkb_client self' = zkb_client self.
Proof.
  intros Hon Hdoc Hjson Hh Herr Hts.
  unfold get_zkb_data. rewrite Hdoc. cbn [reset offline_mode].
  rewrite Hon, Hjson, Hh, Herr. cbn [negb andb].
  unfold serve_cached, timestamp_ok in *.
  destruct (ch_last_modified h) as [url_time|].
  - destruct Hts as [t Ht]. rewrite Ht.
    exists (set_last_modified (Some t) (reset self)).
    split; [reflexivity|]. split; [reflexivity|]. split.
    + intros url_time' [= <-]. exists t. split; [exact Ht|reflexivity].
    + repeat split. exact Hon.
  - exists (reset self).
    split; [reflexivity|]. split; [reflexivity|]. split.
    + discriminate.
    + repeat split. exact Hon.
Qed.


(** Where the reported [last_modified] of a call that returns comes from:
    nothing in offline mode; the timestamp stored in the cached document
    when the answer comes from the cache online (trust-cache return or
    304); whatever the client holds after the request when the answer is
    fresh.  It never depends on the value reported by an earlier call. *)
Theorem reported_last_modified_by_path (self : @interface datetime)
    url body trust w v self' w' :
  get_zkb_data parsedate self url body trust w = (Return v, self', w') ->
  (offline_mode self = true -> last_modified self' = None)
  /\ (offline_mode self = false ->
      stops_at_trust_cache self trust (take_cache_from_file self url w) = true ->
      exists d h,
        take_cache_from_file self url w = Some d /\ doc_headers d = Some h
        /\ v = get_json d
        /\ last_modified self' = stored_timestamp parsedate h)
  /\ (offline_mode self = false ->
      stops_at_trust_cache self trust (take_cache_from_file self url w) = false ->
      forall data c w1,
        send_zkb_request_http parsedate (zkb_client self) (server_url +:+ url)
          (conditional_timestamp (take_cache_from_file self url w)) body w
        = (Return data, c, w1) ->
        if status_code data =? 304 then
          exists d h,
            take_cache_from_file self url w = Some d /\ doc_headers d = Some h
            /\ v = get_json d
            /\ last_modified self' = stored_timestamp parsedate h
        else
          rsp_json data = Some v /\ zkb_client self' = c
          /\ is_last_data_updated self' = true
          /\ last_modified self' = c_last_modified c)
  /\ (forall t,
        get_zkb_data parsedate (set_last_modified t self) url body trust w
        = (Return v, self', w')).
Proof.
  intros H. split; [|split; [|split]].
  - intros Hoff.
    rewrite get_zkb_data_by_mode in H.
    + unfold fetch_by_mode, offline_fetch in H. cbn [reset offline_mode] in H.
      rewrite Hoff in H.
      destruct (take_cache_from_file self url w) as [d|];
        [|injection H as <- <- <-; reflexivity].
      destruct (doc_headers d) as [h|]; [|discriminate].
      destruct (ch_http_error h); [discriminate|].
      injection H as <- <- <-; reflexivity.
    + unfold stops_at_trust_cache. rewrite Hoff.
      destruct (take_cache_from_file self url w); reflexivity.
  - intros Hon Hstop. unfold get_zkb_data in H.
    unfold stops_at_trust_cache in Hstop.
    destruct (take_cache_from_file self url w) as [d|]; [|discriminate].
    cbn [reset offline_mode] in H.
    destruct (negb (offline_mode self) && trust && has_json d);
      [|discriminate].
    destruct (doc_headers d) as [h|] eqn:Hh; [|discriminate].
    destruct (ch_http_error h); [discriminate|].
    apply serve_cached_return in H as (-> & _ & Hlm); [|reflexivity].
    exists d, h. repeat split; assumption.
  - intros Hon Hnet data c w1 Hsend.
    rewrite (get_zkb_data_by_mode _ _ _ _ _ Hnet) in H.
    unfold fetch_by_mode, online_fetch in H.
    cbn [reset offline_mode zkb_client] in H. rewrite Hon, Hsend in H.
    destruct (status_code data =? 304).
    + destruct (take_cache_from_file self url w) as [d|]; [|discriminate].
      destruct (doc_headers d) as [h|] eqn:Hh; [|discriminate].
      apply serve_cached_return in H as (-> & _ & Hlm); [|reflexivity].
      exists d, h. repeat split; assumption.
    + destruct (rsp_json data) as [j|]; [|discriminate].
      injection H as <- <- <-. repeat split.
  - intros t. exact H.
Qed.

End Coordinator.

(** ** Behaviour at concrete inputs *)

(** C1.  An online fetch of a resource with no cache file, answered by a
    500 with a JSON body: the transport raises [HTTPError 500], yet
    [get_zkb_data] returns [None] to its caller instead of raising; no cache
    file is written. *)
Theorem C1_unclassified_http_error_is_swallowed :
  let w := Sample.empty_world [NetResponse (Sample.status 500)] in
  fst (fst (send_zkb_request_http Sample.parsedate (zkb_client Sample.online)
              (server_url +:+ Sample.url) None None w))
  = Raise (HTTPError 500)
  /\ fst (fst (get_zkb_data Sample.parsedate Sample.online Sample.url None false w))
     = Return JNull
  /\ files (snd (get_zkb_data Sample.parsedate Sample.online Sample.url None false w))
     = files w
  /\ writes (trace (snd (get_zkb_data Sample.parsedate Sample.online Sample.url
                           None false w))) = [].
Proof. repeat split. Qed.

(** C2.  The same 200 answer with a [Last-Modified] header leaves its
    parsed timestamp in a client whose logger is on and nothing in a client
    whose logger is off. *)
Theorem C2_last_modified_depends_on_logger :
  let w := Sample.empty_world [NetResponse (Sample.ok (Some Sample.stamp))] in
  let run logger_ :=
    send_zkb_request_http Sample.parsedate (Sample.cli logger_)
      "https://zkillboard.com/api/kills/" None None w in
  fst (fst (run true)) = Return (Sample.ok (Some Sample.stamp))
  /\ fst (fst (run false)) = Return (Sample.ok (Some Sample.stamp))
  /\ c_last_modified (snd (fst (run true))) = Sample.parsedate Sample.stamp
  /\ Sample.parsedate Sample.stamp = Some Sample.stamp
  /\ c_last_modified (snd (fst (run false))) = None.
Proof. repeat split. Qed.

(** C6.  Six 503 answers whose body is not JSON: the first one already
    ends the request with a [JSONDecodeError], raised by the
    [print(res.json())] of the retry branch; there is one request, no sleep
    and no retry.  With JSON bodies the same six answers give the five
    retries after 2, 4, 6, 8 and 10 seconds. *)
Theorem C6_html_503_is_not_retried :
  let run r :=
    send_zkb_request_http Sample.parsedate (Sample.cli true)
      "https://zkillboard.com/api/kills/" None None
      (Sample.empty_world (repeat (NetResponse r) 6)) in
  fst (fst (run Sample.html_503)) = Raise JSONDecodeError
  /\ length (sends (trace (snd (run Sample.html_503)))) = 1%nat
  /\ sleeps (trace (snd (run Sample.html_503))) = []
  /\ length (net (snd (run Sample.html_503))) = 5%nat
  /\ fst (fst (run (Sample.status 503))) = Raise (HTTPError 503)
  /\ length (sends (trace (snd (run (Sample.status 503))))) = 6%nat
  /\ sleeps (trace (snd (run (Sample.status 503)))) = [2; 4; 6; 8; 10].
Proof. repeat split. Qed.

(** C9 (as amended).  A path that does not end in a slash and the same path
    followed by one slash have the same cache file name, so each form reads
    the document the other form wrote.  (A path ending in two slashes keeps
    one of them, which becomes an underscore.) *)
Theorem C9_trailing_slash_normalized {datetime : Type}
    (self : @interface datetime) (p : string) :
  String.eqb (PyStr.last1 p) "/" = false ->
  get_f_name self (p +:+ "/") = get_f_name self p
  /\ (forall w, take_cache_from_file self (p +:+ "/") w
                = take_cache_from_file self p w)
  /\ (forall h j w,
        take_cache_from_file self p (dump_cache_into_file self (p +:+ "/") h j w)
        = Some {| doc_headers := Some h; doc_json := Some j |})
  /\ (forall h j w,
        take_cache_from_file self (p +:+ "/") (dump_cache_into_file self p h j w)
        = Some {| doc_headers := Some h; doc_json := Some j |}).
Proof.
  intros Hp.
  assert (Hkey : get_f_name self (p +:+ "/") = get_f_name self p)
    by (apply get_f_name_in_slash; exact Hp).
  split; [exact Hkey|]. unfold take_cache_from_file, dump_cache_into_file.
  rewrite Hkey. split; [reflexivity|].
  split; intros h j w; cbn [write_file files]; apply lookup_insert_eq.
Qed.

Lemma C9_trailing_slash_witness :
  String.eqb (PyStr.last1 "/corporationID/787611831") "/" = false
  /\ get_f_name Sample.online "/corporationID/787611831/"
     = get_f_name Sample.online "/corporationID/787611831".
Proof.
  split; [reflexivity|].
  apply (C9_trailing_slash_normalized Sample.online "/corporationID/787611831").
  reflexivity.
Defined.

(** C9, the claim as stated fails on a path that ends in two slashes:
    removing one trailing slash from it changes the cache file name. *)
Lemma C9_double_slash_counterexample :
  PyStr.drop_last "/corporationID//" = "/corporationID/"
  /\ get_f_name Sample.online "/corporationID//"
     = "/tmp/.zkb_cache/.cache__corporationID_.json"
  /\ get_f_name Sample.online "/corporationID/"
     = "/tmp/.zkb_cache/.cache__corporationID.json"
  /\ get_f_name Sample.online "/corporationID//"
     <> get_f_name Sample.online (PyStr.drop_last "/corporationID//").
Proof. repeat split. intros H. vm_compute in H. discriminate H. Qed.

(** C3.  Six connection errors in a row and then an answer.  A POST
    sleeps one second after each of the first five errors and raises the
    sixth, as the handler of lines 228-240 is written to do.  A GET never
    reaches that handler: its inner loop retries all six at once, without
    any sleep, and returns the answer that follows; nothing is raised. *)
Theorem C3_get_connection_errors_retried_without_bound :
  let run body :=
    send_zkb_request_http Sample.parsedate (Sample.cli true)
      "https://zkillboard.com/api/kills/" None body
      (Sample.empty_world
         (repeat NetConnectionError 6 ++ [NetResponse (Sample.ok None)])) in
  fst (fst (run (Some "[1]"))) = Raise ConnectionError
  /\ sleeps (trace (snd (run (Some "[1]")))) = [1; 1; 1; 1; 1]
  /\ length (sends (trace (snd (run (Some "[1]"))))) = 6%nat
  /\ fst (fst (run None)) = Return (Sample.ok None)
  /\ fst (fst (run None)) <> Raise ConnectionError
  /\ length (sends (trace (snd (run None)))) = 7%nat
  /\ sleeps (trace (snd (run None))) = [].
Proof. repeat split. intros H. vm_compute in H. discriminate H. Qed.

Lemma connection_retry_policy_example :
  exists r c' w',
    send_zkb_request_http Sample.parsedate (Sample.cli true)
      "https://zkillboard.com/api/kills/" None (Some "[1]")
      (set_net [NetConnectionError; NetResponse (Sample.ok None)]
         (Sample.empty_world []))
    = (r, c', w')
    /\ exists tr, extends (Sample.empty_world []) w' tr
                  /\ (reconnect_sleeps tr <= 5)%nat.
Proof.
  eexists _, _, _. split; [reflexivity|].
  eapply (connection_retry_policy Sample.parsedate (Sample.cli true)
            "https://zkillboard.com/api/kills/" None "[1]"
            (Sample.empty_world [])
            [NetConnectionError; NetResponse (Sample.ok None)]
            _ _ _ 2 (Sample.ok None)).
  - reflexivity.
  - simpl. exact I.
  - reflexivity.
Defined.

(** C5.  Three calls that return a document whose timestamp is not the one
    reported.  Offline, the cached document stores a timestamp and the
    payload is returned, but nothing is reported (online with
    [fully_trust_cache] the same document is reported with its timestamp).
    Online with the logger of the client off, the fresh document is written
    with its [Last-Modified] and nothing is reported.  Online with the
    logger on, a retried 503 with a [Last-Modified] followed by a 200
    without one reports the timestamp of the 503 for a document that has
    none. *)
Theorem C5_reported_last_modified_is_not_the_documents :
  let offline_run :=
    get_zkb_data Sample.parsedate Sample.offline Sample.url None false
      (Sample.cached_world Sample.good_doc []) in
  let trusted_run :=
    get_zkb_data Sample.parsedate Sample.online Sample.url None true
      (Sample.cached_world Sample.good_doc []) in
  let silent_run :=
    get_zkb_data Sample.parsedate Sample.silent Sample.url None false
      (Sample.empty_world [NetResponse (Sample.ok (Some Sample.stamp))]) in
  let retried_run :=
    get_zkb_data Sample.parsedate Sample.online Sample.url None false
      (Sample.empty_world [NetResponse Sample.unavailable_dated;
                           NetResponse (Sample.ok None)]) in
  let stored run :=
    match files (snd run) !! get_f_name Sample.online Sample.url with
    | Some {| doc_headers := Some h |} => ch_last_modified h
    | _ => None
    end in
  (fst (fst offline_run) = Return Sample.payload
   /\ stored offline_run = Some Sample.older
   /\ Sample.parsedate Sample.older = Some Sample.older
   /\ last_modified (snd (fst offline_run)) = None)
  /\ (fst (fst trusted_run) = Return Sample.payload
      /\ last_modified (snd (fst trusted_run)) = Some Sample.older)
  /\ (fst (fst silent_run) = Return Sample.payload
      /\ stored silent_run = Some Sample.stamp
      /\ last_modified (snd (fst silent_run)) = None)
  /\ (fst (fst retried_run) = Return Sample.payload
      /\ stored retried_run = None
      /\ last_modified (snd (fst retried_run)) = Some Sample.older).
Proof. repeat split. Qed.

Lemma reported_last_modified_example :
  exists self' w',
    get_zkb_data Sample.parsedate Sample.online Sample.url None false
      (Sample.empty_world [NetResponse (Sample.ok (Some Sample.stamp))])
    = (Return Sample.payload, self', w')
    /\ (forall t,
          get_zkb_data Sample.parsedate (set_last_modified t Sample.online)
            Sample.url None false
            (Sample.empty_world [NetResponse (Sample.ok (Some Sample.stamp))])
          = (Return Sample.payload, self', w')).
Proof.
  eexists _, _. split; [reflexivity|].
  eapply (reported_last_modified_by_path Sample.parsedate Sample.online Sample.url
            None false
            (Sample.empty_world [NetResponse (Sample.ok (Some Sample.stamp))])).
  reflexivity.
Defined.

Lemma C4_sticky_error_witness :
  exists self' w',
    get_zkb_data Sample.parsedate Sample.online Sample.url None false
      (Sample.empty_world [NetResponse (Sample.status 404)])
    = (Raise (HTTPError 404), self', w')
    /\ files w' !! get_f_name Sample.online Sample.url
       = Some (sticky_document 404)
    /\ Forall (fun r => r = Raise (HTTPError 404))
         (fetch_all Sample.parsedate [(None, false, []); (None, true, [])]
            Sample.offline Sample.url w').
Proof.
  edestruct (C4_sticky_error_persisted_and_replayed Sample.parsedate
               Sample.online Sample.url None false
               (Sample.empty_world [NetResponse (Sample.status 404)]) 404)
    as (self' & w' & Hfetch & Hfiles & _ & Hreplay).
  - reflexivity.
  - reflexivity.
  - reflexivity.
  - right. reflexivity.
  - exists self', w'. split; [exact Hfetch|]. split.
    + rewrite Hfiles. apply lookup_insert_eq.
    + apply Hreplay; reflexivity.
Defined.

Lemma C7_not_modified_witness :
  exists self' w1,
    get_zkb_data Sample.parsedate Sample.online Sample.url None false
      (Sample.cached_world Sample.good_doc [NetResponse Sample.not_modified])
    = (Return Sample.payload, self', w1)
    /\ last_modified self' = Some Sample.older
    /\ files w1 = files (Sample.cached_world Sample.good_doc [])
    /\ writes (trace w1) = [].
Proof.
  edestruct (C7_not_modified_serves_cache Sample.parsedate Sample.online
               Sample.url None false
               (Sample.cached_world Sample.good_doc
                  [NetResponse Sample.not_modified])
               Sample.good_doc Sample.good_headers Sample.not_modified)
    as (self' & Hfetch & Hlm & _ & Hfiles & _ & Hwrites).
  - reflexivity.
  - reflexivity.
  - reflexivity.
  - simpl. eexists. reflexivity.
  - reflexivity.
  - reflexivity.
  - reflexivity.
  - eexists self', _. split; [exact Hfetch|].
    split; [exact Hlm|]. split; [exact Hfiles|exact Hwrites].
Defined.

Lemma C8_trust_cache_witness :
  exists self',
    get_zkb_data Sample.parsedate Sample.online Sample.url None true
      (Sample.cached_world Sample.good_doc [NetResponse (Sample.status 500)])
    = (Return Sample.payload, self',
       Sample.cached_world Sample.good_doc [NetResponse (Sample.status 500)])
    /\ last_modified self' = Some Sample.older.
Proof.
  destruct (C8_trust_cache_short_circuit Sample.parsedate Sample.online
              Sample.url None
              (Sample.cached_world Sample.good_doc
                 [NetResponse (Sample.status 500)])
              Sample.good_doc Sample.good_headers)
    as (self' & Hfetch & Hlm & _).
  - reflexivity.
  - reflexivity.
  - reflexivity.
  - reflexivity.
  - reflexivity.
  - simpl. eexists. reflexivity.
  - exists self'. split; [exact Hfetch|exact Hlm].
Defined.


(** * Further properties *)

(** ** Runs of the transport loop *)

Section TransportRuns.

Context {datetime : Type}.
Variable parsedate : string -> option datetime.

(** Every result of [request_loop] is a run. *)
Lemma request_loop_run uri body script :
  forall (c : @client datetime) l w,
    loop_run parsedate uri body script c l w
      (request_loop parsedate script uri body c l w).
Proof.
  induction script as [|ev rest IH]; intros c l w; [constructor|].
  destruct (advance_counters body l) as (Hc & Hp & Ht).
  cbn [request_loop].
  destruct ev as [| | |res].
  - destruct body as [data|] eqn:Hb.
    + cbn [set_content_type http_connection_times advance] in *.
      destruct (Z.ltb_spec (http_connection_times l) attempts_to_reconnect).
      * apply run_reconnect; [eexists; reflexivity|assumption|apply IH].
      * apply run_connection_error; [eexists; reflexivity|assumption].
    + apply run_get_again; [reflexivity|left; reflexivity|apply IH].
  - destruct body as [data|] eqn:Hb.
    + apply run_timeout. eexists; reflexivity.
    + apply run_get_again; [reflexivity|right; reflexivity|apply IH].
  - destruct body; apply run_failure.
  - assert (Hres : loop_run parsedate uri body (NetResponse res :: rest) c l w
      match log_response parsedate res (acquire c) with
      | inl e => (Raise e, acquire c,
                  set_net rest (emit (IoSend (issued uri body c l)) w))
      | inr c2 =>
          if ((status_code res =? 502) || (status_code res =? 504))
             && (proxy_error_times (advance body l) <? attempts_to_reconnect)
          then request_loop parsedate rest uri body c2
                 (incr_proxy_error_times (advance body l))
                 (emit (IoSend (issued uri body c l)) w)
          else if (status_code res =? 503)
                  && (proxy_error_times (advance body l) <? attempts_to_reconnect)
          then match rsp_json res with
               | None => (Raise JSONDecodeError, c2,
                          set_net rest (emit (IoSend (issued uri body c l)) w))
               | Some _ =>
                   request_loop parsedate rest uri body c2
                     (incr_proxy_error_times (advance body l))
                     (emit (IoSleep (2 * proxy_error_times
                                           (incr_proxy_error_times (advance body l))))
                        (emit (IoSend (issued uri body c l)) w))
               end
          else if (status_code res =? 520)
                  && (throttle_error_times (advance body l) <? attempts_to_reconnect)
          then match rsp_json res with
               | None => (Raise JSONDecodeError, c2,
                          set_net rest (emit (IoSend (issued uri body c l)) w))
               | Some _ =>
                   request_loop parsedate rest uri body c2
                     (incr_throttle_error_times (advance body l))
                     (emit (IoSleep 5) (emit (IoSend (issued uri body c l)) w))
               end
          else (finish res, c2,
                set_net rest (emit (IoSend (issued uri body c l)) w))
      end).
    { destruct (log_response parsedate res (acquire c)) as [e|c2] eqn:Hlog;
        [apply run_log_error; exact Hlog|].
      cbn [incr_proxy_error_times proxy_error_times]. rewrite Hp, Ht.
      destruct (Z.eqb_spec (status_code res) 502) as [H502|H502];
        destruct (Z.eqb_spec (status_code res) 504) as [H504|H504];
        destruct (Z.eqb_spec (status_code res) 503) as [H503|H503];
        destruct (Z.eqb_spec (status_code res) 520) as [H520|H520]; try lia;
        destruct (Z.ltb_spec (proxy_error_times l) attempts_to_reconnect)
          as [Hlt|Hge];
        destruct (Z.ltb_spec (throttle_error_times l) attempts_to_reconnect)
          as [Htl|Htg];
        cbn [orb andb];
        first
          [ eapply run_gateway; [exact Hlog|lia|exact Hlt|apply IH]
          | destruct (rsp_json res) as [j|] eqn:Hj;
            [ first
                [ eapply run_unavailable;
                  [exact Hlog|assumption|exact Hlt|eexists; exact Hj|apply IH]
                | eapply run_throttled;
                  [exact Hlog|assumption|exact Htl|eexists; exact Hj|apply IH] ]
            | eapply run_not_json;
              [ exact Hlog
              | first [left; split; assumption | right; split; assumption]
              | exact Hj ] ]
          | eapply run_finish;
            [exact Hlog | intros Hin; simpl in Hin; lia | intros; lia] ]. }
    exact Hres.
Qed.

Lemma extends_step1 e w w' tr :
  extends (emit e w) w' tr -> extends w w' (e :: tr).
Proof.
  intros [Hf Ht]. split; [exact Hf|].
  rewrite Ht. cbn [emit trace]. rewrite <- app_assoc. reflexivity.
Qed.

Lemma extends_step2 e1 e2 w w' tr :
  extends (emit e2 (emit e1 w)) w' tr -> extends w w' (e1 :: e2 :: tr).
Proof. intros H. apply extends_step1, extends_step1. exact H. Qed.

Lemma extends_stop e rest w : extends w (set_net rest (emit e w)) [e].
Proof. split; reflexivity. Qed.

Lemma acquire_config (c : @client datetime) :
  debug (acquire c) = debug c /\ logger (acquire c) = logger c
  /\ user_agent (acquire c) = user_agent c
  /\ keep_alive (acquire c) = keep_alive c
  /\ restrict_tls13 (acquire c) = restrict_tls13 c
  /\ session (acquire c) = session c || keep_alive c.
Proof.
  unfold acquire. destruct (keep_alive c) eqn:Hk; cbn; rewrite ?Hk;
    repeat split; auto using orb_true_r, orb_false_r.
Qed.

Lemma log_response_config res (c c2 : @client datetime) :
  log_response parsedate res c = inr c2 ->
  debug c2 = debug c /\ logger c2 = logger c
  /\ user_agent c2 = user_agent c /\ keep_alive c2 = keep_alive c
  /\ restrict_tls13 c2 = restrict_tls13 c /\ session c2 = session c.
Proof.
  unfold log_response.
  destruct (logger c) eqn:Hl; [|intros [= <-]; repeat split; exact Hl].
  destruct (h_last_modified res) as [url_time|];
    [|intros [= <-]; repeat split; exact Hl].
  destruct (parsedate url_time); [|discriminate].
  intros [= <-]. repeat split. exact Hl.
Qed.

Lemma log_response_error res (c : @client datetime) e :
  log_response parsedate res c = inl e ->
  e = ParserError /\ logger c = true.
Proof.
  unfold log_response.
  destruct (logger c) eqn:Hl; [|discriminate].
  destruct (h_last_modified res) as [url_time|]; [|discriminate].
  destruct (parsedate url_time); [discriminate|].
  intros [= <-]. split; reflexivity.
Qed.

(** What a call leaves of the client: its configuration, and a session
    exactly when it had one or keeps connections alive. *)
Lemma loop_run_client uri body script (c : @client datetime) l w out :
  loop_run parsedate uri body script c l w out ->
  debug (snd (fst out)) = debug c
  /\ logger (snd (fst out)) = logger c
  /\ user_agent (snd (fst out)) = user_agent c
  /\ keep_alive (snd (fst out)) = keep_alive c
  /\ restrict_tls13 (snd (fst out)) = restrict_tls13 c
  /\ session (snd (fst out)) = session c || keep_alive c.
Proof.
  induction 1 as
    [c l w|ev rest c l w out Hb Hev Hrun IH|rest c l w out Hb Hlt Hrun IH
    |rest c l w Hb Hge|rest c l w Hb|rest c l w|res rest c l w e Hlog
    |res rest c l w c2 out Hlog Hs Hlt Hrun IH
    |res rest c l w c2 out Hlog Hs Hlt Hj Hrun IH
    |res rest c l w c2 out Hlog Hs Hlt Hj Hrun IH
    |res rest c l w c2 Hlog Hs Hj|res rest c l w c2 Hlog Hp Ht];
    destruct (acquire_config c) as (Ha1 & Ha2 & Ha3 & Ha4 & Ha5 & Ha6);
    try (apply log_response_config in Hlog
           as (Hl1 & Hl2 & Hl3 & Hl4 & Hl5 & Hl6));
    cbn [fst snd] in *;
    try (destruct IH as (I1 & I2 & I3 & I4 & I5 & I6));
    repeat split; try congruence.
  all: rewrite I6, ?Hl6, ?Hl4, Ha6, Ha4; destruct (session c), (keep_alive c);
    reflexivity.
Qed.

Lemma issued_same uri body (c c2 : @client datetime) l l2 :
  keep_alive c2 = keep_alive c ->
  headers (advance body l2) = headers (advance body l) ->
  issued uri body c2 l2 = issued uri body c l.
Proof.
  intros Hk Hh. destruct body; unfold issued, get_request, post_request;
    rewrite Hk, Hh; reflexivity.
Qed.

Lemma headers_advance body l :
  headers (advance body (advance body l)) = headers (advance body l)
  /\ headers (advance body (reconnect (advance body l)))
     = headers (advance body l)
  /\ headers (advance body (incr_proxy_error_times (advance body l)))
     = headers (advance body l)
  /\ headers (advance body (incr_throttle_error_times (advance body l)))
     = headers (advance body l).
Proof. destruct body; repeat split. Qed.

(** All the requests of a run are the same request. *)
Lemma loop_run_requests uri body script (c : @client datetime) l w out :
  loop_run parsedate uri body script c l w out ->
  exists tr, extends w (snd out) tr
             /\ Forall (fun rq => rq = issued uri body c l) (sends tr).
Proof.
  induction 1 as
    [c l w|ev rest c l w out Hb Hev Hrun IH|rest c l w out Hb Hlt Hrun IH
    |rest c l w Hb Hge|rest c l w Hb|rest c l w|res rest c l w e Hlog
    |res rest c l w c2 out Hlog Hs Hlt Hrun IH
    |res rest c l w c2 out Hlog Hs Hlt Hj Hrun IH
    |res rest c l w c2 out Hlog Hs Hlt Hj Hrun IH
    |res rest c l w c2 Hlog Hs Hj|res rest c l w c2 Hlog Hp Ht];
    destruct (acquire_config c) as (_ & _ & _ & Hka & _ & _);
    destruct (headers_advance body l) as (Hh1 & Hh2 & Hh3 & Hh4);
    try (apply log_response_config in Hlog as (_ & _ & _ & Hkl & _ & _));
    try (exists [IoSend (issued uri body c l)];
         split; [apply extends_stop|repeat constructor]).
  - destruct IH as (tr & Hext & Hall).
    exists (IoSend (issued uri body c l) :: tr).
    split; [apply extends_step1; exact Hext|].
    rewrite (issued_same uri body c (acquire c) l (advance body l) Hka Hh1) in Hall.
    constructor; [reflexivity|exact Hall].
  - destruct IH as (tr & Hext & Hall).
    exists (IoSend (issued uri body c l) :: IoSleep 1 :: tr).
    split; [apply extends_step2; exact Hext|].
    rewrite (issued_same uri body c (acquire c) l _ Hka Hh2) in Hall.
    constructor; [reflexivity|exact Hall].
  - destruct IH as (tr & Hext & Hall).
    exists (IoSend (issued uri body c l) :: tr).
    split; [apply extends_step1; exact Hext|].
    rewrite (issued_same uri body c c2 l _ (eq_trans Hkl Hka) Hh3) in Hall.
    constructor; [reflexivity|exact Hall].
  - destruct IH as (tr & Hext & Hall).
    exists (IoSend (issued uri body c l) :: IoSleep (2 * (proxy_error_times l + 1)) :: tr).
    split; [apply extends_step2; exact Hext|].
    rewrite (issued_same uri body c c2 l _ (eq_trans Hkl Hka) Hh3) in Hall.
    constructor; [reflexivity|exact Hall].
  - destruct IH as (tr & Hext & Hall).
    exists (IoSend (issued uri body c l) :: IoSleep 5 :: tr).
    split; [apply extends_step2; exact Hext|].
    rewrite (issued_same uri body c c2 l _ (eq_trans Hkl Hka) Hh4) in Hall.
    constructor; [reflexivity|exact Hall].
Qed.

(** How a run can end.  A response is returned only if it is one of the
    answers and not a 4xx or 5xx; an [HTTPError] carries the status of a
    4xx or 5xx answer with a JSON body; a [JSONDecodeError] comes from a
    4xx or 5xx answer without one; connection errors and timeouts are
    raised by a POST only, a [ParserError] only with the logger on. *)
Lemma loop_run_exit uri body script (c : @client datetime) l w out :
  loop_run parsedate uri body script c l w out ->
  match fst (fst out) with
  | Return res =>
      raises_for_status res = false /\ In (NetResponse res) script
  | Raise (HTTPError code) =>
      400 <= code < 600
      /\ exists res, In (NetResponse res) script
                     /\ status_code res = code /\ is_Some (rsp_json res)
  | Raise JSONDecodeError =>
      exists res, In (NetResponse res) script
                  /\ rsp_json res = None /\ 400 <= status_code res < 600
  | Raise ConnectionError => is_Some body /\ In NetConnectionError script
  | Raise Timeout => is_Some body /\ In NetTimeout script
  | Raise RequestException => In NetFailure script
  | Raise ParserError => logger c = true
  | Raise KeyError => False
  | Raise TypeError => False
  | Pending => True
  end.
Proof.
  induction 1 as
    [c l w|ev rest c l w out Hb Hev Hrun IH|rest c l w out Hb Hlt Hrun IH
    |rest c l w Hb Hge|rest c l w Hb|rest c l w|res rest c l w e Hlog
    |res rest c l w c2 out Hlog Hs Hlt Hrun IH
    |res rest c l w c2 out Hlog Hs Hlt Hj Hrun IH
    |res rest c l w c2 out Hlog Hs Hlt Hj Hrun IH
    |res rest c l w c2 Hlog Hs Hj|res rest c l w c2 Hlog Hp Ht];
    destruct (acquire_config c) as (_ & Hla & _ & _ & _ & _);
    try (pose proof (log_response_config _ _ _ Hlog)
           as (_ & Hll & _ & _ & _ & _));
    cbn [fst snd];
    try (destruct out as [[r c'] w']; cbn [fst snd] in IH |- *;
         destruct r as [res0|[]|]; cbn in IH |- *;
         try exact I; try tauto;
         try (destruct IH as (? & ?); split; [assumption|right; assumption]);
         try (destruct IH as (? & res1 & ? & ? & ?); split; [assumption|];
              exists res1; split; [right; assumption|split; assumption]);
         try (destruct IH as (res1 & ? & ? & ?);
              exists res1; split; [right; assumption|split; assumption]);
         try (right; assumption);
         try congruence).
  - exact I.
  - split; [exact Hb|left; reflexivity].
  - split; [exact Hb|left; reflexivity].
  - left; reflexivity.
  - apply log_response_error in Hlog as (-> & Hlog). congruence.
  - exists res. split; [left; reflexivity|]. split; [exact Hj|].
    destruct Hs as [[-> _]|[-> _]]; lia.
  - unfold finish. destruct (raises_for_status res) eqn:Hr.
    + unfold raises_for_status in Hr.
      destruct (rsp_json res) as [j|] eqn:Hj.
      * split; [lia|]. exists res. split; [left; reflexivity|].
        split; [reflexivity|eexists; exact Hj].
      * exists res. split; [left; reflexivity|]. split; [exact Hj|lia].
    + split; [exact Hr|left; reflexivity].
Qed.

Ltac run_cases H :=
  induction H as
    [c l w|ev rest c l w out Hb Hev Hrun IH|rest c l w out Hb Hlt Hrun IH
    |rest c l w Hb Hge|rest c l w Hb|rest c l w|res rest c l w e Hlog
    |res rest c l w c2 out Hlog Hs Hlt Hrun IH
    |res rest c l w c2 out Hlog Hs Hlt Hj Hrun IH
    |res rest c l w c2 out Hlog Hs Hlt Hj Hrun IH
    |res rest c l w c2 Hlog Hs Hj|res rest c l w c2 Hlog Hp Ht].

Lemma finish_not_pending res : finish res <> Pending.
Proof.
  unfold finish. destruct (raises_for_status res); [|discriminate].
  destruct (rsp_json res); discriminate.
Qed.

(** The requests of a run stay within the budget of its first state, up to
    the connection errors and timeouts a GET swallows; each request uses
    one outcome of the script, and only a run that has used them all is
    still pending. *)
Lemma loop_run_budget uri body script (c : @client datetime) l w out :
  loop_run parsedate uri body script c l w out ->
  exists tr, extends w (snd out) tr
    /\ Z.of_nat (length (sends tr))
       <= request_budget body l
          + match body with
            | None => Z.of_nat (transient_failures script)
            | Some _ => 0
            end
    /\ (fst (fst out) = Pending -> length (sends tr) = S (length script))
    /\ (fst (fst out) <> Pending ->
        (length (sends tr) + length (net (snd out)))%nat = length script).
Proof.
  intros H. run_cases H;
    destruct (advance_counters body l) as (Hc & Hp' & Ht');
    try (destruct IH as (tr & Hext & Hle & Hpend & Hdone)).
  - exists [IoSend (issued uri body c l)]. split; [apply extends_stop|].
    split; [|split; [reflexivity|intros Hn; contradiction Hn; reflexivity]].
    unfold request_budget, status_budget. cbn [sends length].
    destruct body; lia.
  - exists (IoSend (issued uri body c l) :: tr).
    split; [apply extends_step1; exact Hext|].
    cbn [sends length]. split; [|split; [intros Hn; rewrite (Hpend Hn); reflexivity
                                        |intros Hn; rewrite <- (Hdone Hn); reflexivity]].
    subst body. unfold request_budget, status_budget in *.
    cbn [advance incr_requests_get_times proxy_error_times throttle_error_times] in Hle.
    destruct Hev as [-> | ->]; cbn [transient_failures]; lia.
  - exists (IoSend (issued uri body c l) :: IoSleep 1 :: tr).
    split; [apply extends_step2; exact Hext|].
    cbn [sends length]. split; [|split; [intros Hn; rewrite (Hpend Hn); reflexivity
                                        |intros Hn; rewrite <- (Hdone Hn); reflexivity]].
    destruct Hb as [data ->]. unfold request_budget, status_budget in *.
    cbn [reconnect proxy_error_times throttle_error_times http_connection_times] in Hle.
    rewrite Hc in Hle. unfold attempts_to_reconnect in *. lia.
  - exists [IoSend (issued uri body c l)]. split; [apply extends_stop|].
    split; [|split; [discriminate|reflexivity]].
    unfold request_budget, status_budget. cbn [sends length]. destruct body; lia.
  - exists [IoSend (issued uri body c l)]. split; [apply extends_stop|].
    split; [|split; [discriminate|reflexivity]].
    unfold request_budget, status_budget. cbn [sends length]. destruct body; lia.
  - exists [IoSend (issued uri body c l)]. split; [apply extends_stop|].
    split; [|split; [discriminate|reflexivity]].
    unfold request_budget, status_budget. cbn [sends length]. destruct body; lia.
  - exists [IoSend (issued uri body c l)]. split; [apply extends_stop|].
    split; [|split; [discriminate|reflexivity]].
    unfold request_budget, status_budget. cbn [sends length]. destruct body; lia.
  - exists (IoSend (issued uri body c l) :: tr).
    split; [apply extends_step1; exact Hext|].
    cbn [sends length]. split; [|split; [intros Hn; rewrite (Hpend Hn); reflexivity
                                        |intros Hn; rewrite <- (Hdone Hn); reflexivity]].
    unfold request_budget, status_budget in *.
    cbn [incr_proxy_error_times proxy_error_times throttle_error_times
         http_connection_times] in Hle.
    rewrite ?Hc, ?Hp', ?Ht' in Hle. cbn [transient_failures].
    destruct body; lia.
  - exists (IoSend (issued uri body c l) :: IoSleep (2 * (proxy_error_times l + 1)) :: tr).
    split; [apply extends_step2; exact Hext|].
    cbn [sends length]. split; [|split; [intros Hn; rewrite (Hpend Hn); reflexivity
                                        |intros Hn; rewrite <- (Hdone Hn); reflexivity]].
    unfold request_budget, status_budget in *.
    cbn [incr_proxy_error_times proxy_error_times throttle_error_times
         http_connection_times] in Hle.
    rewrite ?Hc, ?Hp', ?Ht' in Hle. cbn [transient_failures].
    destruct body; lia.
  - exists (IoSend (issued uri body c l) :: IoSleep 5 :: tr).
    split; [apply extends_step2; exact Hext|].
    cbn [sends length]. split; [|split; [intros Hn; rewrite (Hpend Hn); reflexivity
                                        |intros Hn; rewrite <- (Hdone Hn); reflexivity]].
    unfold request_budget, status_budget in *.
    cbn [incr_throttle_error_times proxy_error_times throttle_error_times
         http_connection_times] in Hle.
    rewrite ?Hc, ?Hp', ?Ht' in Hle. cbn [transient_failures].
    destruct body; lia.
  - exists [IoSend (issued uri body c l)]. split; [apply extends_stop|].
    split; [|split; [discriminate|reflexivity]].
    unfold request_budget, status_budget. cbn [sends length]. destruct body; lia.
  - exists [IoSend (issued uri body c l)]. split; [apply extends_stop|].
    split; [|split; [intros Hn; contradiction (finish_not_pending _ Hn)|reflexivity]].
    unfold request_budget, status_budget. cbn [sends length]. destruct body; lia.
Qed.

Lemma unavailable_budget (p : Z) :
  0 <= p < 5 ->
  2 * (p + 1) + Z.max 0 (30 - (p + 1) * (p + 1 + 1))
  = Z.max 0 (30 - p * (p + 1))
  /\ 2 <= 2 * (p + 1) <= 10.
Proof.
  intros Hp.
  assert (Hcase : p = 0 \/ p = 1 \/ p = 2 \/ p = 3 \/ p = 4) by lia.
  destruct Hcase as [-> | [-> | [-> | [-> | ->]]]]; split; lia.
Qed.

(** The seconds a run sleeps stay within the sleep budget of its first
    state, and every single sleep lasts between 1 and 10 seconds. *)
Lemma loop_run_sleeps uri body script (c : @client datetime) l w out :
  loop_run parsedate uri body script c l w out ->
  0 <= proxy_error_times l ->
  exists tr, extends w (snd out) tr
    /\ total (sleeps tr) <= sleep_budget body l
    /\ Forall (fun d => 1 <= d <= 10) (sleeps tr).
Proof.
  intros H. run_cases H; intros Hpos;
    destruct (advance_counters body l) as (Hc & Hp' & Ht');
    try (destruct IH as (tr & Hext & Hle & Hall);
         [cbn [reconnect incr_proxy_error_times incr_throttle_error_times
               proxy_error_times]; lia|]);
    try (exists [IoSend (issued uri body c l)]; split; [apply extends_stop|];
         split; [|constructor];
         unfold sleep_budget; cbn [sleeps total]; destruct body; lia).
  - exists (IoSend (issued uri body c l) :: tr).
    split; [apply extends_step1; exact Hext|]. cbn [sleeps].
    split; [|exact Hall]. unfold sleep_budget in *.
    rewrite ?Hc, ?Hp', ?Ht' in Hle. exact Hle.
  - exists (IoSend (issued uri body c l) :: IoSleep 1 :: tr).
    split; [apply extends_step2; exact Hext|]. cbn [sleeps total].
    split; [|constructor; [lia|exact Hall]].
    destruct Hb as [data ->]. unfold sleep_budget in *.
    cbn [reconnect proxy_error_times throttle_error_times http_connection_times] in Hle.
    rewrite Hc in Hle. unfold attempts_to_reconnect in *. lia.
  - exists (IoSend (issued uri body c l) :: tr).
    split; [apply extends_step1; exact Hext|]. cbn [sleeps].
    split; [|exact Hall]. unfold sleep_budget in *.
    cbn [incr_proxy_error_times proxy_error_times throttle_error_times
         http_connection_times] in Hle.
    rewrite ?Hc, ?Hp', ?Ht' in Hle.
    destruct (unavailable_budget (proxy_error_times l)) as [Heq _];
      [unfold attempts_to_reconnect in *; lia|].
    destruct body; lia.
  - exists (IoSend (issued uri body c l) :: IoSleep (2 * (proxy_error_times l + 1)) :: tr).
    split; [apply extends_step2; exact Hext|]. cbn [sleeps total].
    destruct (unavailable_budget (proxy_error_times l)) as [Heq Hrange];
      [unfold attempts_to_reconnect in *; lia|].
    split; [|constructor; [lia|exact Hall]]. unfold sleep_budget in *.
    cbn [incr_proxy_error_times proxy_error_times throttle_error_times
         http_connection_times] in Hle.
    rewrite ?Hc, ?Hp', ?Ht' in Hle.
    destruct body; lia.
  - exists (IoSend (issued uri body c l) :: IoSleep 5 :: tr).
    split; [apply extends_step2; exact Hext|]. cbn [sleeps total].
    split; [|constructor; [lia|exact Hall]]. unfold sleep_budget in *.
    cbn [incr_throttle_error_times proxy_error_times throttle_error_times
         http_connection_times] in Hle.
    rewrite ?Hc, ?Hp', ?Ht' in Hle. unfold attempts_to_reconnect in *.
    destruct body; lia.
Qed.

(** *** Runs of retried answers *)

(** One 502 or 504 below the bound: ask again at once. *)
Lemma request_loop_gateway res rest uri body (c : @client datetime) l w :
  gateway_error parsedate res ->
  proxy_error_times l < attempts_to_reconnect ->
  request_loop parsedate (NetResponse res :: rest) uri body c l w
  = request_loop parsedate rest uri body
      (observe parsedate res (acquire c))
      (incr_proxy_error_times (advance body l))
      (emit (IoSend (issued uri body c l)) w).
Proof.
  intros (Hs & Hl) Hp.
  destruct (advance_counters body l) as (_ & Hpe & _).
  cbn [request_loop].
  rewrite (log_response_loggable _ _ _ Hl), Hpe.
  rewrite (proj2 (Z.ltb_lt _ _) Hp).
  destruct Hs as [-> | ->]; reflexivity.
Qed.

(** One 520 with a JSON body below its bound: sleep five seconds. *)
Lemma request_loop_520 res rest uri body (c : @client datetime) l w :
  retryable_520 parsedate res ->
  throttle_error_times l < attempts_to_reconnect ->
  request_loop parsedate (NetResponse res :: rest) uri body c l w
  = request_loop parsedate rest uri body
      (observe parsedate res (acquire c))
      (incr_throttle_error_times (advance body l))
      (emit (IoSleep 5) (emit (IoSend (issued uri body c l)) w)).
Proof.
  intros (Hs & [j Hj] & Hl) Hp.
  destruct (advance_counters body l) as (_ & _ & Hte).
  cbn [request_loop].
  rewrite (log_response_loggable _ _ _ Hl), Hs, Hte, Hj.
  rewrite (proj2 (Z.ltb_lt _ _) Hp). cbn [Z.eqb Pos.eqb orb andb].
  reflexivity.
Qed.

(** An answer that is not retried ends the loop by [finish]. *)
Lemma request_loop_final res rest uri body (c : @client datetime) l w :
  loggable parsedate res ->
  (In (status_code res) [502; 503; 504] ->
   attempts_to_reconnect <= proxy_error_times l) ->
  (status_code res = 520 -> attempts_to_reconnect <= throttle_error_times l) ->
  request_loop parsedate (NetResponse res :: rest) uri body c l w
  = (finish res, observe parsedate res (acquire c),
     set_net rest (emit (IoSend (issued uri body c l)) w)).
Proof.
  intros Hl Hp Ht.
  destruct (advance_counters body l) as (_ & Hpe & Hte).
  cbn [request_loop].
  rewrite (log_response_loggable _ _ _ Hl), Hpe, Hte.
  assert (H1 : ((status_code res =? 502) || (status_code res =? 504))
               && (proxy_error_times l <? attempts_to_reconnect) = false).
  { destruct (Z.eqb_spec (status_code res) 502) as [E|E];
      destruct (Z.eqb_spec (status_code res) 504) as [E'|E']; cbn [orb andb];
      try reflexivity; apply Z.ltb_ge, Hp; rewrite ?E, ?E'; simpl; auto. }
  assert (H2 : (status_code res =? 503)
               && (proxy_error_times l <? attempts_to_reconnect) = false).
  { destruct (Z.eqb_spec (status_code res) 503) as [E|E]; cbn [andb];
      try reflexivity; apply Z.ltb_ge, Hp; rewrite E; simpl; auto. }
  assert (H3 : (status_code res =? 520)
               && (throttle_error_times l <? attempts_to_reconnect) = false).
  { destruct (Z.eqb_spec (status_code res) 520) as [E|E]; cbn [andb];
      try reflexivity; apply Z.ltb_ge, Ht, E. }
  rewrite H1, H2, H3. reflexivity.
Qed.

Lemma incr_proxy_counters body l :
  http_connection_times (incr_proxy_error_times (advance body l))
  = http_connection_times l
  /\ proxy_error_times (incr_proxy_error_times (advance body l))
     = proxy_error_times l + 1
  /\ throttle_error_times (incr_proxy_error_times (advance body l))
     = throttle_error_times l.
Proof. destruct body; repeat split. Qed.

Lemma incr_throttle_counters body l :
  http_connection_times (incr_throttle_error_times (advance body l))
  = http_connection_times l
  /\ proxy_error_times (incr_throttle_error_times (advance body l))
     = proxy_error_times l
  /\ throttle_error_times (incr_throttle_error_times (advance body l))
     = throttle_error_times l + 1.
Proof. destruct body; repeat split. Qed.

(** A run of 502 and 504 answers within the bound: as many requests, no
    sleep, and the loop goes on with the counter that much higher. *)
Lemma request_loop_gateway_prefix uri body tail gs :
  forall (c : @client datetime) l w,
    Forall (gateway_error parsedate) gs ->
    proxy_error_times l + Z.of_nat (length gs) <= attempts_to_reconnect ->
    exists c' l' w' tr,
      request_loop parsedate (map NetResponse gs ++ tail) uri body c l w
      = request_loop parsedate tail uri body c' l' w'
      /\ extends w w' tr
      /\ sleeps tr = [] /\ length (sends tr) = length gs
      /\ http_connection_times l' = http_connection_times l
      /\ proxy_error_times l' = proxy_error_times l + Z.of_nat (length gs)
      /\ throttle_error_times l' = throttle_error_times l.
Proof.
  induction gs as [|g gs IH]; intros c l w Hgs Hlen.
  - exists c, l, w, []. split; [reflexivity|].
    split; [split; [reflexivity|symmetry; apply app_nil_r]|].
    cbn [length Z.of_nat]. repeat split; lia.
  - apply Forall_cons in Hgs as [Hg Hgs]. cbn [length] in Hlen.
    cbn [map app]. rewrite request_loop_gateway by (try exact Hg; lia).
    destruct (incr_proxy_counters body l) as (Hc & Hp & Ht).
    edestruct (IH (observe parsedate g (acquire c))
                  (incr_proxy_error_times (advance body l)))
      as (c' & l' & w' & tr & Heq & Hext & Hsl & Hsn & Hc' & Hp' & Ht');
      [exact Hgs|rewrite Hp; lia|].
    exists c', l', w', (IoSend (issued uri body c l) :: tr).
    split; [exact Heq|]. split; [apply extends_step1; exact Hext|].
    cbn [sleeps sends length]. rewrite Hsl, Hsn, Hc', Hp', Ht', Hc, Hp, Ht.
    repeat split; lia.
Qed.

(** A run of 503 answers with JSON bodies within the bound: each is
    followed by its sleep, and the loop goes on. *)
Lemma request_loop_503_prefix uri body tail rs :
  forall (c : @client datetime) l w,
    Forall (retryable_503 parsedate) rs ->
    proxy_error_times l + Z.of_nat (length rs) <= attempts_to_reconnect ->
    exists c' l' w' tr,
      request_loop parsedate (map NetResponse rs ++ tail) uri body c l w
      = request_loop parsedate tail uri body c' l' w'
      /\ extends w w' tr
      /\ sleeps tr = backoff (proxy_error_times l) (length rs)
      /\ length (sends tr) = length rs
      /\ http_connection_times l' = http_connection_times l
      /\ proxy_error_times l' = proxy_error_times l + Z.of_nat (length rs)
      /\ throttle_error_times l' = throttle_error_times l.
Proof.
  induction rs as [|r rs IH]; intros c l w Hrs Hlen.
  - exists c, l, w, []. split; [reflexivity|].
    split; [split; [reflexivity|symmetry; apply app_nil_r]|].
    cbn [length Z.of_nat]. repeat split; lia.
  - apply Forall_cons in Hrs as [Hr Hrs]. cbn [length] in Hlen.
    cbn [map app]. rewrite request_loop_503 by (try exact Hr; lia).
    destruct (incr_proxy_counters body l) as (Hc & Hp & Ht).
    edestruct (IH (observe parsedate r (acquire c))
                  (incr_proxy_error_times (advance body l)))
      as (c' & l' & w' & tr & Heq & Hext & Hsl & Hsn & Hc' & Hp' & Ht');
      [exact Hrs|rewrite Hp; lia|].
    exists c', l', w',
      (IoSend (issued uri body c l)
       :: IoSleep (2 * (proxy_error_times l + 1)) :: tr).
    split; [exact Heq|]. split; [apply extends_step2; exact Hext|].
    cbn [sleeps sends length backoff].
    rewrite Hsl, Hsn, Hc', Hp', Ht', Hc, Hp, Ht.
    repeat split; lia.
Qed.

(** A run of 520 answers with JSON bodies within their own bound: five
    seconds of sleep after each, and the loop goes on. *)
Lemma request_loop_520_prefix uri body tail rs :
  forall (c : @client datetime) l w,
    Forall (retryable_520 parsedate) rs ->
    throttle_error_times l + Z.of_nat (length rs) <= attempts_to_reconnect ->
    exists c' l' w' tr,
      request_loop parsedate (map NetResponse rs ++ tail) uri body c l w
      = request_loop parsedate tail uri body c' l' w'
      /\ extends w w' tr
      /\ sleeps tr = repeat 5 (length rs)
      /\ length (sends tr) = length rs
      /\ http_connection_times l' = http_connection_times l
      /\ proxy_error_times l' = proxy_error_times l
      /\ throttle_error_times l' = throttle_error_times l + Z.of_nat (length rs).
Proof.
  induction rs as [|r rs IH]; intros c l w Hrs Hlen.
  - exists c, l, w, []. split; [reflexivity|].
    split; [split; [reflexivity|symmetry; apply app_nil_r]|].
    cbn [length Z.of_nat]. repeat split; lia.
  - apply Forall_cons in Hrs as [Hr Hrs]. cbn [length] in Hlen.
    cbn [map app]. rewrite request_loop_520 by (try exact Hr; lia).
    destruct (incr_throttle_counters body l) as (Hc & Hp & Ht).
    edestruct (IH (observe parsedate r (acquire c))
                  (incr_throttle_error_times (advance body l)))
      as (c' & l' & w' & tr & Heq & Hext & Hsl & Hsn & Hc' & Hp' & Ht');
      [exact Hrs|rewrite Ht; lia|].
    exists c', l', w', (IoSend (issued uri body c l) :: IoSleep 5 :: tr).
    split; [exact Heq|]. split; [apply extends_step2; exact Hext|].
    cbn [sleeps sends length repeat].
    rewrite Hsl, Hsn, Hc', Hp', Ht', Hc, Hp, Ht.
    repeat split; lia.
Qed.

(** A 4xx or 5xx answer other than 502 and 504 whose body is not JSON
    ends the loop with the decoding error, whatever the counters are: in
    the 503 and 520 retry branches by the [print(res.json())] of lines 210
    and 220, otherwise by the one of line 244. *)
Lemma request_loop_not_json res rest uri body (c : @client datetime) l w :
  loggable parsedate res ->
  rsp_json res = None ->
  400 <= status_code res < 600 ->
  status_code res <> 502 -> status_code res <> 504 ->
  request_loop parsedate (NetResponse res :: rest) uri body c l w
  = (Raise JSONDecodeError, observe parsedate res (acquire c),
     set_net rest (emit (IoSend (issued uri body c l)) w)).
Proof.
  intros Hl Hj Hrange H502 H504.
  cbn [request_loop]. rewrite (log_response_loggable _ _ _ Hl), Hj.
  apply Z.eqb_neq in H502, H504. rewrite H502, H504. cbn [orb andb].
  unfold finish, raises_for_status. rewrite Hj.
  assert (Herr : (400 <=? status_code res) && (status_code res <? 600) = true)
    by lia.
  rewrite Herr.
  destruct ((status_code res =? 503)
            && (proxy_error_times (advance body l) <? attempts_to_reconnect));
    [reflexivity|].
  destruct ((status_code res =? 520)
            && (throttle_error_times (advance body l) <? attempts_to_reconnect));
    reflexivity.
Qed.

(** *** What a request does, whatever the network answers *)

Lemma send_run (c : @client datetime) uri lm body w :
  loop_run parsedate uri body (net w) (set_c_last_modified None c)
    (initial_locals c lm body) w
    (send_zkb_request_http parsedate c uri lm body w).
Proof. apply request_loop_run. Qed.

(** X1.  All the requests of one call are the same request: to the given
    uri, GET without a body and POST with one; [If-Modified-Since] is sent
    only on a GET that was given a timestamp, [Content-Type] only on a
    POST, [User-Agent] only when one is configured and not empty; the
    timeouts of 3 and 7 seconds are set on a GET only.  There is at least
    one request. *)
Theorem send_requests_uniform (c : @client datetime) uri lm body w :
  exists rq tr,
    extends w (snd (send_zkb_request_http parsedate c uri lm body w)) tr
    /\ sends tr <> []
    /\ Forall (fun rq' => rq' = rq) (sends tr)
    /\ rq_uri rq = uri
    /\ rq_method rq = match body with Some _ => POST | None => GET end
    /\ rq_data rq = body
    /\ rh_if_modified_since (rq_headers rq)
       = match lm, body with Some t, None => Some t | _, _ => None end
    /\ rh_content_type (rq_headers rq)
       = match body with Some _ => Some "application/json" | None => None end
    /\ rh_user_agent (rq_headers rq)
       = match user_agent c with
         | Some ua => if PyStr.truthy ua then Some ua else None
         | None => None
         end
    /\ rq_timeout rq
       = match body with None => Some (3, 7) | Some _ => None end
    /\ rq_session rq = keep_alive c.
Proof.
  destruct (loop_run_requests _ _ _ _ _ _ _ (send_run c uri lm body w))
    as (tr & Hext & Hall).
  destruct (request_loop_extends parsedate (net w) uri body
              (set_c_last_modified None c) (initial_locals c lm body) w
              (fst (fst (send_zkb_request_http parsedate c uri lm body w)))
              (snd (fst (send_zkb_request_http parsedate c uri lm body w)))
              (snd (send_zkb_request_http parsedate c uri lm body w)))
    as (tr0 & [_ Ht0] & _).
  { unfold send_zkb_request_http.
    destruct (request_loop _ _ _ _ _ _ _) as [[? ?] ?]. reflexivity. }
  exists (issued uri body (set_c_last_modified None c) (initial_locals c lm body)), tr.
  split; [exact Hext|]. split.
  - destruct Hext as [_ Ht]. rewrite Ht in Ht0.
    apply app_inv_head in Ht0. subst tr. discriminate.
  - split; [exact Hall|]. destruct body, lm; repeat split.
Qed.

(** X2.  A response is returned only if it is one of the answers received
    and is not a 4xx or 5xx.  An [HTTPError] carries the status of a 4xx or
    5xx answer received whose body is JSON, and a decoding error comes only
    from a 4xx or 5xx answer received whose body is not JSON.  The other
    way round, for the first answer of a request, when its [Last-Modified]
    is a date: one that is not a 4xx or 5xx is returned, and a 4xx or 5xx
    other than 502 and 504 whose body is not JSON ends the call at once
    with the decoding error (a 502 or 504 is retried without its body being
    read). *)
Theorem send_exit_status (c : @client datetime) uri lm body w :
  match fst (fst (send_zkb_request_http parsedate c uri lm body w)) with
  | Return res =>
      raises_for_status res = false /\ In (NetResponse res) (net w)
  | Raise (HTTPError code) =>
      400 <= code < 600
      /\ exists res, In (NetResponse res) (net w)
                     /\ status_code res = code /\ is_Some (rsp_json res)
  | Raise JSONDecodeError =>
      exists res, In (NetResponse res) (net w)
                  /\ rsp_json res = None /\ 400 <= status_code res < 600
  | _ => True
  end
  /\ (forall res rest,
        net w = NetResponse res :: rest ->
        loggable parsedate res ->
        (raises_for_status res = false ->
         fst (fst (send_zkb_request_http parsedate c uri lm body w))
         = Return res
         /\ net (snd (send_zkb_request_http parsedate c uri lm body w)) = rest)
        /\ (rsp_json res = None ->
            400 <= status_code res < 600 ->
            status_code res <> 502 -> status_code res <> 504 ->
            fst (fst (send_zkb_request_http parsedate c uri lm body w))
            = Raise JSONDecodeError
            /\ net (snd (send_zkb_request_http parsedate c uri lm body w))
               = rest
            /\ length (sends (trace (snd (send_zkb_request_http parsedate c
                                            uri lm body w))))
               = S (length (sends (trace w))))).
Proof.
  split.
  - pose proof (loop_run_exit _ _ _ _ _ _ _ (send_run c uri lm body w)) as H.
    destruct (fst (fst (send_zkb_request_http parsedate c uri lm body w)))
      as [res|[]|]; try exact I; exact H.
  - intros res rest Hnet Hl. unfold send_zkb_request_http. rewrite Hnet. split.
    + intros Hok. rewrite request_loop_final.
      * unfold finish. rewrite Hok. split; reflexivity.
      * exact Hl.
      * unfold raises_for_status in Hok. intros Hin. simpl in Hin. lia.
      * unfold raises_for_status in Hok. intros H520. lia.
    + intros Hj Hrange H502 H504.
      rewrite (request_loop_not_json _ _ _ _ _ _ _ Hl Hj Hrange H502 H504).
      cbn [fst snd set_net net emit trace]. split; [reflexivity|].
      split; [reflexivity|]. rewrite sends_app. cbn [sends].
      rewrite length_app. cbn [length]. lia.
Qed.

(** X3.  A GET never raises a connection error or a timeout, whatever the
    network does; a POST raises them only when the network produced one.
    No request raises a [ParserError] while the logger is off. *)
Theorem send_raises_connection_errors_on_post_only
    (c : @client datetime) uri lm body w :
  let r := fst (fst (send_zkb_request_http parsedate c uri lm body w)) in
  (r = Raise ConnectionError ->
   is_Some body /\ In NetConnectionError (net w))
  /\ (r = Raise Timeout -> is_Some body /\ In NetTimeout (net w))
  /\ (r = Raise RequestException -> In NetFailure (net w))
  /\ (r = Raise ParserError -> logger c = true)
  /\ r <> Raise KeyError /\ r <> Raise TypeError.
Proof.
  pose proof (loop_run_exit _ _ _ _ _ _ _ (send_run c uri lm body w)) as H.
  cbn zeta.
  destruct (fst (fst (send_zkb_request_http parsedate c uri lm body w)))
    as [res|[]|];
    (split; [|split; [|split; [|split; [|split]]]]);
    intros Heq; try discriminate Heq; exact H.
Qed.

(** X4.  A POST issues at most 66 requests in one call: six rounds (the
    first and five reconnects) of at most eleven.  So with 66 outcomes of
    the network at hand the call has ended. *)
Theorem post_request_bound (c : @client datetime) uri lm data w :
  let out := send_zkb_request_http parsedate c uri lm (Some data) w in
  exists tr, extends w (snd out) tr
    /\ (length (sends tr) <= 66)%nat
    /\ ((66 <= length (net w))%nat -> fst (fst out) <> Pending).
Proof.
  cbn zeta.
  destruct (loop_run_budget _ _ _ _ _ _ _ (send_run c uri lm (Some data) w))
    as (tr & Hext & Hle & Hpend & _).
  exists tr. split; [exact Hext|].
  unfold request_budget, status_budget, attempts_to_reconnect in Hle.
  cbn in Hle. split; [lia|].
  intros Hlen Hp. specialize (Hpend Hp). lia.
Qed.

(** X5.  A GET issues at most eleven requests beyond the connection errors
    and timeouts it met, and each request uses up one outcome of the
    network. *)
Theorem get_request_bound (c : @client datetime) uri lm w :
  let out := send_zkb_request_http parsedate c uri lm None w in
  exists tr, extends w (snd out) tr
    /\ (length (sends tr) <= 11 + transient_failures (net w))%nat
    /\ (fst (fst out) <> Pending ->
        (length (sends tr) + length (net (snd out)))%nat = length (net w))
    /\ ((11 + transient_failures (net w) <= length (net w))%nat ->
        fst (fst out) <> Pending).
Proof.
  cbn zeta.
  destruct (loop_run_budget _ _ _ _ _ _ _ (send_run c uri lm None w))
    as (tr & Hext & Hle & Hpend & Hdone).
  exists tr. split; [exact Hext|].
  unfold request_budget, status_budget, attempts_to_reconnect in Hle.
  cbn in Hle. split; [lia|]. split; [exact Hdone|].
  intros Hlen Hp. specialize (Hpend Hp). lia.
Qed.

(** X6.  One call sleeps at most 55 seconds in all on a GET and at most
    335 seconds on a POST, and between 1 and 10 seconds at a time. *)
Theorem send_sleep_bound (c : @client datetime) uri lm body w :
  exists tr,
    extends w (snd (send_zkb_request_http parsedate c uri lm body w)) tr
    /\ total (sleeps tr) <= match body with None => 55 | Some _ => 335 end
    /\ Forall (fun d => 1 <= d <= 10) (sleeps tr).
Proof.
  destruct (loop_run_sleeps _ _ _ _ _ _ _ (send_run c uri lm body w))
    as (tr & Hext & Hle & Hall); [cbn; lia|].
  exists tr. split; [exact Hext|]. split; [|exact Hall].
  unfold sleep_budget, attempts_to_reconnect in Hle. cbn in Hle.
  destruct body; lia.
Qed.

(** X10.  A call leaves the configuration of the client as it was, and a
    session exactly when there was one or connections are kept alive. *)
Theorem send_keeps_client_config (c : @client datetime) uri lm body w :
  let c' := snd (fst (send_zkb_request_http parsedate c uri lm body w)) in
  debug c' = debug c /\ logger c' = logger c
  /\ user_agent c' = user_agent c /\ keep_alive c' = keep_alive c
  /\ restrict_tls13 c' = restrict_tls13 c
  /\ session c' = session c || keep_alive c.
Proof.
  exact (loop_run_client _ _ _ _ _ _ _ (send_run c uri lm body w)).
Qed.

(** X7.  The 502 and 504 answers count against the same five retries as
    the 503 answers: after [k] of them, retried without sleeping, the 503
    delays start at [2 * (k + 1)], and once the two kinds add up to five
    the next 502, 503 or 504 is raised as [HTTPError]. *)
Theorem gateway_errors_share_the_503_retries
    gs rs res rest (c : @client datetime) uri lm body w :
  Forall (gateway_error parsedate) gs ->
  Forall (retryable_503 parsedate) rs ->
  (length gs + length rs = 5)%nat ->
  In (status_code res) [502; 503; 504] ->
  is_Some (rsp_json res) ->
  loggable parsedate res ->
  exists c' w' tr,
    send_zkb_request_http parsedate c uri lm body
      (set_net (map NetResponse gs ++ map NetResponse rs
                ++ NetResponse res :: rest) w)
    = (Raise (HTTPError (status_code res)), c', w')
    /\ extends w w' tr /\ net w' = rest
    /\ sleeps tr = backoff (Z.of_nat (length gs)) (length rs)
    /\ length (sends tr) = 6%nat.
Proof.
  intros Hgs Hrs Hlen Hst [j Hj] Hl.
  unfold send_zkb_request_http. cbn [net set_net].
  edestruct (request_loop_gateway_prefix uri body
               (map NetResponse rs ++ NetResponse res :: rest) gs
               (set_c_last_modified None c) (initial_locals c lm body)
               (set_net (map NetResponse gs ++ map NetResponse rs
                         ++ NetResponse res :: rest) w))
    as (c1 & l1 & w1 & tr1 & Heq1 & Hext1 & Hsl1 & Hsn1 & Hc1 & Hp1 & Ht1);
    [exact Hgs|cbn; unfold attempts_to_reconnect; lia|].
  rewrite Heq1. cbn [initial_locals proxy_error_times throttle_error_times] in Hp1, Ht1.
  edestruct (request_loop_503_prefix uri body (NetResponse res :: rest) rs c1 l1 w1)
    as (c2 & l2 & w2 & tr2 & Heq2 & Hext2 & Hsl2 & Hsn2 & Hc2 & Hp2 & Ht2);
    [exact Hrs|unfold attempts_to_reconnect; lia|].
  rewrite Heq2, request_loop_final;
    [|exact Hl|unfold attempts_to_reconnect; intros _; lia
     |intros H520; simpl in Hst; lia].
  unfold finish, raises_for_status. rewrite Hj.
  assert (Herr : (400 <=? status_code res) && (status_code res <? 600) = true)
    by (simpl in Hst; lia).
  rewrite Herr.
  eexists _, _, (tr1 ++ tr2 ++ [IoSend (issued uri body c2 l2)])%list.
  split; [reflexivity|]. split.
  - apply (extends_trans _ _ _ _ _ Hext1).
    apply (extends_trans _ _ _ _ _ Hext2). apply extends_stop.
  - split; [reflexivity|].
    rewrite !sleeps_app, !sends_app, !length_app, Hsl1, Hsl2, Hsn1, Hsn2, Hp1.
    cbn [sleeps sends length app]. rewrite app_nil_r.
    split; [f_equal; lia|lia].
Qed.

(** X8.  The 520 answers have five retries of their own, five seconds
    each, whatever the 503 answers used: [a] retried 503 answers and [b]
    retried 520 answers, up to five of each, followed by a good answer,
    give that answer after the sleeps of both. *)
Theorem throttle_retries_are_independent
    rs ts res rest (c : @client datetime) uri lm body w :
  Forall (retryable_503 parsedate) rs ->
  Forall (retryable_520 parsedate) ts ->
  (length rs <= 5)%nat ->
  (length ts <= 5)%nat ->
  loggable parsedate res ->
  raises_for_status res = false ->
  exists c' w' tr,
    send_zkb_request_http parsedate c uri lm body
      (set_net (map NetResponse rs ++ map NetResponse ts
                ++ NetResponse res :: rest) w)
    = (Return res, c', w')
    /\ extends w w' tr /\ net w' = rest
    /\ sleeps tr = (backoff 0 (length rs) ++ repeat 5 (length ts))%list
    /\ length (sends tr) = S (length rs + length ts).
Proof.
  intros Hrs Hts Hlr Hlt Hl Hok.
  unfold send_zkb_request_http. cbn [net set_net].
  edestruct (request_loop_503_prefix uri body
               (map NetResponse ts ++ NetResponse res :: rest) rs
               (set_c_last_modified None c) (initial_locals c lm body)
               (set_net (map NetResponse rs ++ map NetResponse ts
                         ++ NetResponse res :: rest) w))
    as (c1 & l1 & w1 & tr1 & Heq1 & Hext1 & Hsl1 & Hsn1 & Hc1 & Hp1 & Ht1);
    [exact Hrs|cbn; unfold attempts_to_reconnect; lia|].
  rewrite Heq1. cbn [initial_locals proxy_error_times throttle_error_times] in Hsl1, Hp1, Ht1.
  edestruct (request_loop_520_prefix uri body (NetResponse res :: rest) ts c1 l1 w1)
    as (c2 & l2 & w2 & tr2 & Heq2 & Hext2 & Hsl2 & Hsn2 & Hc2 & Hp2 & Ht2);
    [exact Hts|unfold attempts_to_reconnect; lia|].
  unfold raises_for_status in Hok.
  rewrite Heq2, request_loop_final;
    [|exact Hl|intros Hin; simpl in Hin; lia|intros H520; lia].
  unfold finish, raises_for_status. rewrite Hok.
  eexists _, _, (tr1 ++ tr2 ++ [IoSend (issued uri body c2 l2)])%list.
  split; [reflexivity|]. split.
  - apply (extends_trans _ _ _ _ _ Hext1).
    apply (extends_trans _ _ _ _ _ Hext2). apply extends_stop.
  - split; [reflexivity|].
    rewrite !sleeps_app, !sends_app, !length_app, Hsl1, Hsl2, Hsn1, Hsn2.
    cbn [sleeps sends length app]. rewrite app_nil_r.
    split; [reflexivity|lia].
Qed.

(** X9.  [send_zkb_request_json] returns a payload only when the request
    returned an answer that is not a 4xx or 5xx and whose body is that
    JSON; an answer without a JSON body, such as a 304, makes it raise. *)
Theorem send_zkb_request_json_returns (c : @client datetime) uri lm body w :
  (forall j,
     fst (fst (send_zkb_request_json parsedate c uri lm body w)) = Return j ->
     exists res, In (NetResponse res) (net w)
                 /\ raises_for_status res = false
                 /\ rsp_json res = Some j)
  /\ (forall res,
        fst (fst (send_zkb_request_http parsedate c uri lm body w)) = Return res ->
        rsp_json res = None ->
        fst (fst (send_zkb_request_json parsedate c uri lm body w))
        = Raise JSONDecodeError)
  /\ snd (send_zkb_request_json parsedate c uri lm body w)
     = snd (send_zkb_request_http parsedate c uri lm body w).
Proof.
  pose proof (loop_run_exit _ _ _ _ _ _ _ (send_run c uri lm body w)) as Hexit.
  unfold send_zkb_request_json.
  destruct (send_zkb_request_http parsedate c uri lm body w) as [[r c1] w1].
  cbn [fst snd] in *. split; [|split].
  - intros j Hj. destruct r as [res|e|]; try discriminate.
    destruct (rsp_json res) as [j'|] eqn:Hres; [|discriminate].
    injection Hj as <-. destruct Hexit as [Hok Hin].
    exists res. repeat split; assumption.
  - intros res [= ->] Hnone. rewrite Hnone. reflexivity.
  - destruct r as [res|e|]; [destruct (rsp_json res)| |]; reflexivity.
Qed.

End TransportRuns.

(** ** Every way through [get_zkb_data] *)

Section CoordinatorRuns.

Context {datetime : Type}.
Variable parsedate : string -> option datetime.

(** The ways a call can go: it stops before the network (offline, or at
    the trust-cache test) and leaves the world as it was; or it goes
    through the transport once and then either writes nothing, or writes
    the fresh document and returns its payload, or writes the 403/404
    document and raises that error. *)
Lemma get_zkb_data_cases (self : @interface datetime) url body trust w :
  let cached := take_cache_from_file self url w in
  let out := get_zkb_data parsedate self url body trust w in
  let sent :=
    send_zkb_request_http parsedate (zkb_client self) (server_url +:+ url)
      (conditional_timestamp cached) body w in
  let self1 := set_client (snd (fst sent)) (reset self) in
  (snd out = w
   /\ (offline_mode self = true \/ stops_at_trust_cache self trust cached = true)
   /\ is_last_data_updated (snd (fst out)) = false
   /\ zkb_client (snd (fst out)) = zkb_client self)
  \/ (offline_mode self = false
      /\ stops_at_trust_cache self trust cached = false
      /\ zkb_client (snd (fst out)) = snd (fst sent)
      /\ ((snd out = snd sent
           /\ is_last_data_updated (snd (fst out)) = false
           /\ (forall j data, fst (fst sent) = Return data ->
                 rsp_json data = Some j -> status_code data = 304)
           /\ fst (fst sent) <> Raise (HTTPError 403)
           /\ fst (fst sent) <> Raise (HTTPError 404))
          \/ (exists data j,
                fst (fst sent) = Return data /\ status_code data <> 304
                /\ rsp_json data = Some j
                /\ out = (Return j,
                          set_updated (c_last_modified (snd (fst sent))) self1,
                          write_file (get_f_name self url)
                            {| doc_headers := Some (get_cached_headers data);
                               doc_json := Some j |} (snd sent)))
          \/ (exists code,
                fst (fst sent) = Raise (HTTPError code)
                /\ (code = 403 \/ code = 404)
                /\ out = (Raise (HTTPError code), self1,
                          write_file (get_f_name self url)
                            (sticky_document code) (snd sent))))).
Proof.
  cbn zeta.
  destruct (stops_at_trust_cache self trust (take_cache_from_file self url w))
    eqn:Hstop.
  - left. unfold get_zkb_data. unfold stops_at_trust_cache in Hstop.
    destruct (take_cache_from_file self url w) as [d|]; [|discriminate].
    cbn [reset offline_mode].
    destruct (negb (offline_mode self) && trust && has_json d); [|discriminate].
    destruct (doc_headers d) as [h|];
      [|cbn; repeat split; right; reflexivity].
    destruct (ch_http_error h); [discriminate|].
    unfold serve_cached.
    destruct (ch_last_modified h) as [url_time|];
      [destruct (parsedate url_time)|]; cbn; repeat split; right; reflexivity.
  - rewrite (get_zkb_data_by_mode _ _ _ _ _ _ Hstop). unfold fetch_by_mode.
    cbn [reset offline_mode].
    destruct (offline_mode self) eqn:Hoff.
    + left. unfold offline_fetch.
      destruct (take_cache_from_file self url w) as [d|];
        [|cbn; repeat split; left; reflexivity].
      destruct (doc_headers d) as [h|];
        [|cbn; repeat split; left; reflexivity].
      destruct (ch_http_error h); cbn; repeat split; left; reflexivity.
    + right. split; [reflexivity|]. split; [reflexivity|].
      unfold online_fetch. cbn [reset zkb_client].
      destruct (send_zkb_request_http parsedate (zkb_client self)
                  (server_url +:+ url)
                  (conditional_timestamp (take_cache_from_file self url w))
                  body w) as [[r c] w1].
      cbn [fst snd].
      assert (Hquiet : forall r0 self2,
                (forall j data, r0 = Return data -> rsp_json data = Some j ->
                                status_code data = 304) ->
                r0 <> Raise (HTTPError 403) -> r0 <> Raise (HTTPError 404) ->
                is_last_data_updated self2 = false ->
                zkb_client self2 = c ->
                forall res : outcome json,
                zkb_client (snd (fst (res, self2, w1))) = c
                /\ (snd (res, self2, w1) = w1
                    /\ is_last_data_updated (snd (fst (res, self2, w1))) = false
                    /\ (forall j data, r0 = Return data ->
                          rsp_json data = Some j -> status_code data = 304)
                    /\ r0 <> Raise (HTTPError 403)
                    /\ r0 <> Raise (HTTPError 404)
                    \/ (exists data j,
                          r0 = Return data /\ status_code data <> 304
                          /\ rsp_json data = Some j
                          /\ (res, self2, w1)
                             = (Return j,
                                set_updated (c_last_modified c)
                                  (set_client c (reset self)),
                                write_file (get_f_name self url)
                                  {| doc_headers := Some (get_cached_headers data);
                                     doc_json := Some j |} w1))
                    \/ (exists code,
                          r0 = Raise (HTTPError code)
                          /\ (code = 403 \/ code = 404)
                          /\ (res, self2, w1)
                             = (Raise (HTTPError code),
                                set_client c (reset self),
                                write_file (get_f_name self url)
                                  (sticky_document code) w1)))).
      { intros r0 self2 H1 H2 H3 H4 H5 res. split; [exact H5|]. left.
        repeat split; assumption. }
      destruct r as [data|e|].
      * destruct (Z.eqb_spec (status_code data) 304) as [H304|H304].
        -- assert (Hq : forall j data', Return data = Return data' ->
                     rsp_json data' = Some j -> status_code data' = 304)
             by (intros j data' [= <-] _; exact H304).
           destruct (take_cache_from_file self url w) as [d|];
             [destruct (doc_headers d) as [h|];
              [unfold serve_cached;
               destruct (ch_last_modified h) as [url_time|];
               [destruct (parsedate url_time)|]|]|];
             apply Hquiet; try assumption; try discriminate; reflexivity.
        -- destruct (rsp_json data) as [j|] eqn:Hj.
           ++ split; [reflexivity|]. right. left. exists data, j.
              repeat split; auto.
           ++ apply Hquiet; try discriminate; try reflexivity.
              intros j data' [= <-] Hj'. congruence.
      * destruct e as [code| | | | | | |];
          try (apply Hquiet; try discriminate; reflexivity).
        destruct (Z.eqb_spec code 403) as [-> | H403].
        -- split; [reflexivity|]. right. right. exists 403.
           repeat split; auto.
        -- destruct (Z.eqb_spec code 404) as [-> | H404].
           ++ split; [reflexivity|]. right. right. exists 404.
              repeat split; auto.
           ++ apply Hquiet; try discriminate; try reflexivity; congruence.
      * apply Hquiet; try discriminate; reflexivity.
Qed.

Lemma send_frame (c : @client datetime) uri lm body w :
  files (snd (send_zkb_request_http parsedate c uri lm body w)) = files w
  /\ exists rq tr,
       trace (snd (send_zkb_request_http parsedate c uri lm body w))
       = (trace w ++ IoSend rq :: tr)%list
       /\ writes tr = []
       /\ Forall (fun rq' => rq' = rq) (sends (IoSend rq :: tr))
       /\ rq_uri rq = uri
       /\ rq_data rq = body
       /\ rh_if_modified_since (rq_headers rq)
          = match lm, body with Some t, None => Some t | _, _ => None end.
Proof.
  destruct (send_zkb_request_http parsedate c uri lm body w) as [[r c1] w1] eqn:Hs.
  pose proof (send_extends parsedate _ _ _ _ _ _ _ _ Hs)
    as (rq & tr & [Hf Ht] & Huri & Hw).
  destruct (loop_run_requests parsedate _ _ _ _ _ _ _ (send_run parsedate c uri lm body w))
    as (tr' & [_ Ht'] & Hall).
  rewrite Hs in Ht'. cbn [snd] in *. rewrite Ht in Ht'.
  apply app_inv_head in Ht'. subst tr'.
  split; [exact Hf|]. exists rq, tr. split; [exact Ht|]. split; [exact Hw|].
  split; [|split; [exact Huri|split]].
  - cbn [sends] in *. apply Forall_cons in Hall as [Hrq Hrest].
    constructor; [reflexivity|].
    eapply Forall_impl; [exact Hrest|]. intros x ->. symmetry. exact Hrq.
  - cbn [sends] in Hall. apply Forall_cons in Hall as [Hrq _].
    rewrite Hrq. destruct body; reflexivity.
  - cbn [sends] in Hall. apply Forall_cons in Hall as [Hrq _].
    rewrite Hrq. destruct body, lm; reflexivity.
Qed.

(** Offline, a call looks at the cache file and at nothing else. *)
Lemma offline_get_zkb_data (self : @interface datetime) url body trust w :
  offline_mode self = true ->
  get_zkb_data parsedate self url body trust w
  = offline_fetch (take_cache_from_file self url w) (reset self) w.
Proof.
  intros Hoff. rewrite get_zkb_data_by_mode.
  - unfold fetch_by_mode. cbn [reset offline_mode]. rewrite Hoff. reflexivity.
  - unfold stops_at_trust_cache. rewrite Hoff.
    destruct (take_cache_from_file self url w); reflexivity.
Qed.

Lemma offline_fetch_world cached (self : @interface datetime) w :
  snd (offline_fetch cached self w) = w
  /\ snd (fst (offline_fetch cached self w)) = self
  /\ fst (fst (offline_fetch cached self w)) <> Pending.
Proof.
  unfold offline_fetch. destruct cached as [d|]; [|repeat split; discriminate].
  destruct (doc_headers d) as [h|]; [|repeat split; discriminate].
  destruct (ch_http_error h); repeat split; discriminate.
Qed.

(** X11.  An offline call never touches the network or the cache: the
    world after it is the world before it, it always ends, it reports no
    [last_modified], and its result depends on the cache file alone, not on
    the body, the trust flag or what the network would answer. *)
Theorem offline_fetch_is_read_only (self : @interface datetime)
    url body trust w body' trust' script :
  offline_mode self = true ->
  let out := get_zkb_data parsedate self url body trust w in
  snd out = w
  /\ fst (fst out) <> Pending
  /\ last_modified (snd (fst out)) = None
  /\ fst (fst (get_zkb_data parsedate self url body' trust' (set_net script w)))
     = fst (fst out).
Proof.
  intros Hoff. cbn zeta. rewrite !offline_get_zkb_data by exact Hoff.
  destruct (offline_fetch_world (take_cache_from_file self url w) (reset self) w)
    as (Hw & Hself & Hend).
  split; [exact Hw|]. split; [exact Hend|]. split; [rewrite Hself; reflexivity|].
  unfold take_cache_from_file. cbn [set_net files].
  unfold offline_fetch. destruct (files w !! get_f_name self url) as [d|];
    [|reflexivity].
  destruct (doc_headers d) as [h|]; [|reflexivity].
  destruct (ch_http_error h); reflexivity.
Qed.

(** X12.  A call writes at most one cache file, the one of its resource,
    and only in two cases: it returns a fresh payload, and the file then
    holds that payload under headers without ["Http-Error"]; or it raises
    [HTTPError] 403 or 404, and the file then holds that error with a
    [null] payload.  In every other case the cache is what it was. *)
Theorem fetch_writes_on_success_or_denial (self : @interface datetime)
    url body trust w :
  let out := get_zkb_data parsedate self url body trust w in
  let f := get_f_name self url in
  (writes (trace (snd out)) = writes (trace w) /\ files (snd out) = files w)
  \/ (writes (trace (snd out)) = (writes (trace w) ++ [f])%list
      /\ exists d,
           files (snd out) = <[f := d]> (files w)
           /\ ((exists j h,
                  fst (fst out) = Return j
                  /\ d = {| doc_headers := Some h; doc_json := Some j |}
                  /\ ch_http_error h = None)
               \/ (exists code,
                     (code = 403 \/ code = 404)
                     /\ fst (fst out) = Raise (HTTPError code)
                     /\ d = sticky_document code))).
Proof.
  cbn zeta.
  pose proof (get_zkb_data_cases self url body trust w) as Hcases.
  cbn zeta in Hcases.
  destruct (send_frame (zkb_client self) (server_url +:+ url)
              (conditional_timestamp (take_cache_from_file self url w)) body w)
    as (Hf & rq & tr & Ht & Hw & _).
  assert (Hwr : writes (trace (snd (send_zkb_request_http parsedate
                   (zkb_client self) (server_url +:+ url)
                   (conditional_timestamp (take_cache_from_file self url w))
                   body w))) = writes (trace w)).
  { rewrite Ht, writes_app. cbn [writes]. rewrite Hw. apply app_nil_r. }
  destruct Hcases as [(-> & _)|(_ & _ & _ & [(-> & _)|[Hfresh|Hsticky]])].
  - left. split; reflexivity.
  - left. split; [exact Hwr|exact Hf].
  - destruct Hfresh as (data & j & _ & _ & _ & ->). right. cbn [fst snd].
    cbn [write_file trace files]. rewrite writes_app, Hwr, Hf.
    split; [reflexivity|]. eexists. split; [reflexivity|]. left.
    exists j, (get_cached_headers data). repeat split.
  - destruct Hsticky as (code & _ & Hcode & ->). right. cbn [fst snd].
    cbn [write_file trace files]. rewrite writes_app, Hwr, Hf.
    split; [reflexivity|]. eexists. split; [reflexivity|]. right.
    exists code. repeat split. exact Hcode.
Qed.

Lemma doc_ok_fresh h j :
  ch_http_error h = None ->
  doc_ok {| doc_headers := Some h; doc_json := Some j |}.
Proof.
  intros Hh. exists h, j. repeat split. all: congruence.
Qed.

Lemma doc_ok_sticky code :
  code = 403 \/ code = 404 -> doc_ok (sticky_document code).
Proof.
  intros Hcode. exists (http_error_headers code), JNull.
  split; [reflexivity|]. split; [reflexivity|].
  intros code' [= <-]. split; [reflexivity|exact Hcode].
Qed.

Lemma store_ok_insert fs f d :
  store_ok fs -> doc_ok d -> store_ok (<[f := d]> fs).
Proof.
  intros Hfs Hd f' d' Hlook.
  destruct (decide (f = f')) as [<- | Hne].
  - rewrite lookup_insert_eq in Hlook. injection Hlook as <-. exact Hd.
  - rewrite lookup_insert_ne in Hlook by exact Hne. exact (Hfs _ _ Hlook).
Qed.

(** X13.  The cache stays well formed: if every document of the cache has
    both keys, and an ["Http-Error"] of 403 or 404 only beside a [null]
    payload, the same holds after any call, and the call does not raise
    [KeyError] (the lookups [cached_data["headers"]] are safe). *)
Theorem fetch_keeps_cache_well_formed (self : @interface datetime)
    url body trust w :
  store_ok (files w) ->
  store_ok (files (snd (get_zkb_data parsedate self url body trust w)))
  /\ fst (fst (get_zkb_data parsedate self url body trust w)) <> Raise KeyError.
Proof.
  intros Hok. split.
  - pose proof (get_zkb_data_cases self url body trust w) as Hcases.
    cbn zeta in Hcases.
    destruct (send_frame (zkb_client self) (server_url +:+ url)
                (conditional_timestamp (take_cache_from_file self url w)) body w)
      as (Hf & _).
    destruct Hcases as [(-> & _)|(_ & _ & _ & [(-> & _)|[Hfresh|Hsticky]])].
    + exact Hok.
    + rewrite Hf. exact Hok.
    + destruct Hfresh as (data & j & _ & _ & _ & ->).
      cbn [snd write_file files]. rewrite Hf.
      apply store_ok_insert; [exact Hok|]. apply doc_ok_fresh. reflexivity.
    + destruct Hsticky as (code & _ & Hcode & ->).
      cbn [snd write_file files]. rewrite Hf.
      apply store_ok_insert; [exact Hok|]. apply doc_ok_sticky, Hcode.
  - assert (Hdoc : forall d, take_cache_from_file self url w = Some d ->
                     exists h, doc_headers d = Some h).
    { intros d Hd. destruct (Hok _ _ Hd) as (h & j & Hh & _). eauto. }
    pose proof (loop_run_exit parsedate _ _ _ _ _ _ _
                  (send_run parsedate (zkb_client self) (server_url +:+ url)
                     (conditional_timestamp (take_cache_from_file self url w))
                     body w)) as Hexit.
    unfold get_zkb_data, fetch_by_mode, offline_fetch, online_fetch, serve_cached.
    cbn [reset offline_mode zkb_client].
    destruct (send_zkb_request_http parsedate (zkb_client self)
                (server_url +:+ url)
                (conditional_timestamp (take_cache_from_file self url w))
                body w) as [[r c] w1].
    cbn [fst] in Hexit.
    destruct (take_cache_from_file self url w) as [d|].
    + destruct (Hdoc d eq_refl) as (h & ->).
      destruct (negb (offline_mode self) && trust && has_json d),
        (ch_http_error h), (offline_mode self), (ch_last_modified h) as [t|];
        try destruct (parsedate t); try discriminate;
        destruct r as [data|[]|]; try discriminate; try contradiction;
        try (destruct (status_code data =? 304));
        try (destruct (rsp_json data)); try discriminate;
        try (destruct (code =? 403)); try (destruct (code =? 404));
        discriminate.
    + destruct (offline_mode self); [discriminate|].
      destruct r as [data|[]|]; try discriminate; try contradiction;
        try (destruct (status_code data =? 304));
        try (destruct (rsp_json data)); try discriminate;
        try (destruct (code =? 403)); try (destruct (code =? 404));
        discriminate.
Qed.

(** X14.  What an online call fetched fresh is what later calls replay: after
    a call that got an answer other than 304 with a JSON body, every
    offline call on the same cache directory returns that payload, and so
    does every online call with [fully_trust_cache], without touching the
    world and reporting the parsed [Last-Modified] of the answer. *)
Theorem fresh_payload_is_replayed (self : @interface datetime)
    url body trust w data c w1 j :
  offline_mode self = false ->
  stops_at_trust_cache self trust (take_cache_from_file self url w) = false ->
  send_zkb_request_http parsedate (zkb_client self) (server_url +:+ url)
    (conditional_timestamp (take_cache_from_file self url w)) body w
  = (Return data, c, w1) ->
  status_code data <> 304 ->
  rsp_json data = Some j ->
  exists self' w',
    get_zkb_data parsedate self url body trust w = (Return j, self', w')
    /\ (forall (off : @interface datetime) body' trust' w2,
          offline_mode off = true ->
          cache_dir off = cache_dir self ->
          files w2 = files w' ->
          get_zkb_data parsedate off url body' trust' w2
          = (Return j, reset off, w2))
    /\ (forall (on : @interface datetime) body' w2,
          offline_mode on = false ->
          cache_dir on = cache_dir self ->
          files w2 = files w' ->
          loggable parsedate data ->
          exists on',
            get_zkb_data parsedate on url body' true w2 = (Return j, on', w2)
            /\ last_modified on'
               = match h_last_modified data with
                 | Some url_time => parsedate url_time
                 | None => None
                 end
            /\ (forall url_time, h_last_modified data = Some url_time ->
                  exists t, parsedate url_time = Some t
                            /\ last_modified on' = Some t)).
Proof.
  intros Hon Hnet Hsend H304 Hj.
  rewrite (get_zkb_data_by_mode _ _ _ _ _ _ Hnet).
  unfold fetch_by_mode, online_fetch. cbn [reset offline_mode zkb_client].
  rewrite Hon, Hsend, Hj. apply Z.eqb_neq in H304. rewrite H304.
  eexists _, _. split; [reflexivity|].
  assert (Hlook : forall (other : @interface datetime) w2,
            cache_dir other = cache_dir self ->
            files w2
            = files (dump_cache_into_file (set_client c (reset self)) url
                       (get_cached_headers data) j w1) ->
            take_cache_from_file other url w2
            = Some {| doc_headers := Some (get_cached_headers data);
                      doc_json := Some j |}).
  { intros other w2 Hdir Hfiles. unfold take_cache_from_file, get_f_name.
    rewrite Hfiles, Hdir. cbn [dump_cache_into_file write_file files].
    apply lookup_insert_eq. }
  split.
  - intros off body' trust' w2 Hoff Hdir Hfiles.
    rewrite offline_get_zkb_data by exact Hoff.
    rewrite (Hlook off w2 Hdir Hfiles). reflexivity.
  - intros on body' w2 Honl Hdir Hfiles Hlog.
    unfold get_zkb_data. rewrite (Hlook on w2 Hdir Hfiles).
    cbn [reset offline_mode has_json doc_json doc_headers get_cached_headers
         ch_http_error].
    rewrite Honl. cbn [negb andb].
    unfold serve_cached, loggable in *.
    change (ch_last_modified (get_cached_headers data))
      with (h_last_modified data).
    destruct (h_last_modified data) as [url_time|].
    + destruct Hlog as [t Ht]. rewrite Ht.
      exists (set_last_modified (Some t) (reset on)).
      split; [reflexivity|]. split; [reflexivity|].
      intros url_time' [= <-]. exists t. split; [exact Ht|reflexivity].
    + exists (reset on). split; [reflexivity|]. split; [reflexivity|].
      discriminate.
Qed.

(** X15.  The network is contacted exactly by the online calls that do not
    stop at the trust-cache test.  Every request of a call goes to the
    server url followed by the resource and carries the body given;
    [If-Modified-Since] is the [last-modified] stored in the cache file
    when there is no body, and is never sent with a body. *)
Theorem fetch_requests_are_conditional (self : @interface datetime)
    url body trust w :
  let cached := take_cache_from_file self url w in
  exists tr,
    trace (snd (get_zkb_data parsedate self url body trust w))
    = (trace w ++ tr)%list
    /\ (sends tr = [] <->
        offline_mode self = true
        \/ stops_at_trust_cache self trust cached = true)
    /\ Forall (fun rq =>
                 rq_uri rq = server_url +:+ url
                 /\ rq_data rq = body
                 /\ rh_if_modified_since (rq_headers rq)
                    = match body, cached with
                      | None, Some d =>
                          match doc_headers d with
                          | Some h => ch_last_modified h
                          | None => None
                          end
                      | _, _ => None
                      end) (sends tr).
Proof.
  cbn zeta.
  pose proof (get_zkb_data_cases self url body trust w) as Hcases.
  cbn zeta in Hcases.
  destruct (send_frame (zkb_client self) (server_url +:+ url)
              (conditional_timestamp (take_cache_from_file self url w)) body w)
    as (_ & rq & tr & Ht & _ & Hall & Huri & Hdata & Hims).
  assert (Hshape : Forall (fun rq0 =>
                     rq_uri rq0 = server_url +:+ url
                     /\ rq_data rq0 = body
                     /\ rh_if_modified_since (rq_headers rq0)
                        = match body, take_cache_from_file self url w with
                          | None, Some d =>
                              match doc_headers d with
                              | Some h => ch_last_modified h
                              | None => None
                              end
                          | _, _ => None
                          end) (sends (IoSend rq :: tr))).
  { eapply Forall_impl; [exact Hall|]. intros x ->.
    split; [exact Huri|]. split; [exact Hdata|]. rewrite Hims.
    unfold conditional_timestamp.
    destruct body, (take_cache_from_file self url w) as [d|];
      try reflexivity.
    - destruct (doc_headers d) as [h|]; [|reflexivity].
      destruct (ch_last_modified h); reflexivity.
    - destruct (doc_headers d) as [h|]; [|reflexivity].
      destruct (ch_last_modified h); reflexivity. }
  destruct Hcases as [(-> & Hwhy & _)|(Hon & Hnet & _ & Hout)].
  - exists []. split; [symmetry; apply app_nil_r|].
    split; [split; auto|constructor].
  - assert (Hnot : forall tr', sends (IoSend rq :: tr') = [] <->
              offline_mode self = true
              \/ stops_at_trust_cache self trust
                   (take_cache_from_file self url w) = true).
    { intros tr'. cbn [sends]. split; [discriminate|].
      intros [H|H]; congruence. }
    destruct Hout as [(-> & _)|[Hfresh|Hsticky]].
    + exists (IoSend rq :: tr). split; [exact Ht|]. split; [apply Hnot|exact Hshape].
    + destruct Hfresh as (data & j & _ & _ & _ & ->). cbn [snd write_file trace].
      exists (IoSend rq :: tr ++ [IoWrite (get_f_name self url)])%list.
      split; [rewrite Ht, <- app_assoc; reflexivity|].
      split; [apply Hnot|].
      cbn [sends]. rewrite sends_app. cbn [sends]. rewrite app_nil_r.
      exact Hshape.
    + destruct Hsticky as (code & _ & _ & ->). cbn [snd write_file trace].
      exists (IoSend rq :: tr ++ [IoWrite (get_f_name self url)])%list.
      split; [rewrite Ht, <- app_assoc; reflexivity|].
      split; [apply Hnot|].
      cbn [sends]. rewrite sends_app. cbn [sends]. rewrite app_nil_r.
      exact Hshape.
Qed.

End CoordinatorRuns.

(** ** File names and merged pages *)

Lemma chars_append (a b : string) :
  chars (a +:+ b) = (chars a ++ chars b)%list.
Proof. induction a as [|c a IH]; [reflexivity|]. simpl. rewrite IH. reflexivity. Qed.

Lemma replace_chars (c : ascii) (by_ s : string) (x : ascii) :
  In x (chars (PyStr.replace c by_ s)) ->
  In x (chars by_) \/ (In x (chars s) /\ x <> c).
Proof.
  induction s as [|d s IH]; simpl; [tauto|].
  destruct (Ascii.eqb_spec d c) as [-> | Hne].
  - rewrite chars_append, in_app_iff. intros [H|H]; [left; exact H|].
    destruct (IH H) as [H'|[H' Hx]]; [left; exact H'|right; tauto].
  - simpl. intros [<- | H]; [right; tauto|].
    destruct (IH H) as [H'|[H' Hx]]; [left; exact H'|right; tauto].
Qed.

(** X16.  The file name of a resource is the cache directory, [/.cache_],
    the normalized url and [.json]; the normalized url holds none of the
    characters [/], [=], [?] and [&]. *)
Theorem cache_name_is_safe (dir url : string) :
  get_f_name_in dir url = dir +:+ "/.cache_" +:+ cache_name url +:+ ".json"
  /\ Forall (fun x => ~ In x ["/"; "="; "?"; "&"]%char) (chars (cache_name url)).
Proof.
  split; [reflexivity|].
  apply Forall_forall. intros x Hx. apply list_elem_of_In in Hx.
  unfold cache_name in Hx.
  set (u := if String.eqb (PyStr.last1 url) "/"
            then PyStr.drop_last url else url) in Hx.
  apply replace_chars in Hx as [Hx|[Hx Hamp]];
    [simpl in Hx; destruct Hx as [<- |[]]; simpl; intuition discriminate|].
  apply replace_chars in Hx as [Hx|[Hx Hq]]; [destruct Hx|].
  apply replace_chars in Hx as [Hx|[Hx Heq]];
    [simpl in Hx; destruct Hx as [<- |[]]; simpl; intuition discriminate|].
  apply replace_chars in Hx as [Hx|[Hx Hsl]];
    [simpl in Hx; destruct Hx as [<- |[]]; simpl; intuition discriminate|].
  simpl. intuition congruence.
Qed.

(** X17.  One trailing slash of the cache directory does not matter: the
    instance made on [dir/] is the instance made on [dir], and its files
    are [dir/.cache_<name>.json]. *)
Theorem cache_dir_trailing_slash {datetime : Type} (c : @client datetime)
    (dir : string) (offline : bool) :
  String.eqb (PyStr.last1 dir) "/" = false ->
  new_interface c (dir +:+ "/") offline = new_interface c dir offline
  /\ forall url,
       get_f_name (new_interface c (dir +:+ "/") offline) url
       = dir +:+ "/.cache_" +:+ cache_name url +:+ ".json".
Proof.
  intros Hdir.
  assert (Hsame : setup_cache_dir (dir +:+ "/") = setup_cache_dir dir).
  { unfold setup_cache_dir. rewrite last1_snoc, drop_last_snoc, Hdir. reflexivity. }
  split.
  - unfold new_interface. rewrite Hsame. reflexivity.
  - intros url. unfold get_f_name, new_interface. cbn [cache_dir].
    rewrite Hsame. unfold setup_cache_dir. rewrite Hdir. reflexivity.
Qed.

Lemma merge_pages_arrays (pages : list (list json)) :
  forall merged,
    merge_pages merged (map JArr pages) = Some (merged ++ concat pages)%list.
Proof.
  induction pages as [|p pages IH]; intros merged; simpl.
  - rewrite app_nil_r. reflexivity.
  - rewrite IH, <- app_assoc. reflexivity.
Qed.

(** X18.  [__get_merged_pages] of a document whose payload is a list of
    pages, each a list, is the concatenation of the pages in order; of a
    document without ["json"] it is [None]; on the document of a 403 or 404
    (payload [null]) it raises [TypeError]. *)
Theorem merged_pages_concat :
  (forall h (pages : list (list json)),
     get_merged_pages {| doc_headers := h;
                         doc_json := Some (JArr (map JArr pages)) |}
     = Return (Some (concat pages)))
  /\ (forall h, get_merged_pages {| doc_headers := h; doc_json := None |}
                = Return None)
  /\ (forall code, get_merged_pages (sticky_document code) = Raise TypeError).
Proof.
  split; [|split; reflexivity].
  intros h pages. unfold get_merged_pages. cbn [doc_json py_iter].
  rewrite merge_pages_arrays. reflexivity.
Qed.

(** ** Witnesses of the further properties *)

Lemma gateway_errors_witness :
  exists c' w' tr,
    send_zkb_request_http Sample.parsedate (Sample.cli true)
      "https://zkillboard.com/api/kills/" None None
      (set_net (map NetResponse [Sample.status 502; Sample.status 504]
                ++ map NetResponse [Sample.status 503; Sample.status 503;
                                    Sample.status 503]
                ++ [NetResponse (Sample.status 504)])
         (Sample.empty_world []))
    = (Raise (HTTPError 504), c', w')
    /\ extends (Sample.empty_world []) w' tr /\ net w' = []
    /\ sleeps tr = [6; 8; 10]
    /\ length (sends tr) = 6%nat.
Proof.
  apply (gateway_errors_share_the_503_retries Sample.parsedate
           [Sample.status 502; Sample.status 504]
           [Sample.status 503; Sample.status 503; Sample.status 503]
           (Sample.status 504) [] (Sample.cli true)
           "https://zkillboard.com/api/kills/" None None
           (Sample.empty_world [])).
  - constructor; [split; [left; reflexivity|exact I]|].
    constructor; [split; [right; reflexivity|exact I]|constructor].
  - repeat constructor; eexists; reflexivity.
  - reflexivity.
  - simpl. tauto.
  - eexists. reflexivity.
  - simpl. exact I.
Defined.

Lemma throttle_retries_witness :
  exists c' w' tr,
    send_zkb_request_http Sample.parsedate (Sample.cli true)
      "https://zkillboard.com/api/kills/" None None
      (set_net (map NetResponse [Sample.status 503]
                ++ map NetResponse [Sample.status 520; Sample.status 520]
                ++ [NetResponse (Sample.ok None)])
         (Sample.empty_world []))
    = (Return (Sample.ok None), c', w')
    /\ extends (Sample.empty_world []) w' tr /\ net w' = []
    /\ sleeps tr = [2; 5; 5]
    /\ length (sends tr) = 4%nat.
Proof.
  apply (throttle_retries_are_independent Sample.parsedate
           [Sample.status 503] [Sample.status 520; Sample.status 520]
           (Sample.ok None) [] (Sample.cli true)
           "https://zkillboard.com/api/kills/" None None
           (Sample.empty_world [])).
  - repeat constructor; eexists; reflexivity.
  - repeat constructor; eexists; reflexivity.
  - simpl. lia.
  - simpl. lia.
  - simpl. exact I.
  - reflexivity.
Defined.

Lemma offline_read_only_witness :
  snd (get_zkb_data Sample.parsedate Sample.offline Sample.url None false
         (Sample.cached_world Sample.good_doc [NetResponse (Sample.status 500)]))
  = Sample.cached_world Sample.good_doc [NetResponse (Sample.status 500)]
  /\ fst (fst (get_zkb_data Sample.parsedate Sample.offline Sample.url
                 (Some "[1]") true
                 (set_net []
                    (Sample.cached_world Sample.good_doc
                       [NetResponse (Sample.status 500)]))))
     = fst (fst (get_zkb_data Sample.parsedate Sample.offline Sample.url None
                   false
                   (Sample.cached_world Sample.good_doc
                      [NetResponse (Sample.status 500)]))).
Proof.
  destruct (offline_fetch_is_read_only Sample.parsedate Sample.offline
              Sample.url None false
              (Sample.cached_world Sample.good_doc
                 [NetResponse (Sample.status 500)])
              (Some "[1]") true [])
    as (Hw & _ & _ & Hsame).
  - reflexivity.
  - split; [exact Hw|exact Hsame].
Defined.

Lemma cache_well_formed_witness :
  store_ok (files (Sample.cached_world Sample.good_doc []))
  /\ store_ok
       (files (snd (get_zkb_data Sample.parsedate Sample.online Sample.url
                      None false
                      (Sample.cached_world Sample.good_doc
                         [NetResponse (Sample.status 404)])))).
Proof.
  assert (Hok : store_ok (files (Sample.cached_world Sample.good_doc []))).
  { intros f d Hd. cbn [Sample.cached_world files] in Hd.
    apply lookup_singleton_Some in Hd as [_ <-].
    exists Sample.good_headers, Sample.payload.
    split; [reflexivity|]. split; [reflexivity|]. discriminate. }
  split; [exact Hok|].
  apply (fetch_keeps_cache_well_formed Sample.parsedate Sample.online
           Sample.url None false
           (Sample.cached_world Sample.good_doc
              [NetResponse (Sample.status 404)])).
  exact Hok.
Defined.

Lemma fresh_payload_witness :
  exists self' w',
    get_zkb_data Sample.parsedate Sample.online Sample.url None false
      (Sample.empty_world [NetResponse (Sample.ok (Some Sample.stamp))])
    = (Return Sample.payload, self', w')
    /\ get_zkb_data Sample.parsedate Sample.offline Sample.url None false w'
       = (Return Sample.payload, reset Sample.offline, w').
Proof.
  edestruct (fresh_payload_is_replayed Sample.parsedate Sample.online
               Sample.url None false
               (Sample.empty_world [NetResponse (Sample.ok (Some Sample.stamp))])
               (Sample.ok (Some Sample.stamp)))
    as (self' & w' & Hfetch & Hoff & _).
  - reflexivity.
  - reflexivity.
  - reflexivity.
  - discriminate.
  - reflexivity.
  - exists self', w'. split; [exact Hfetch|].
    apply Hoff; reflexivity.
Defined.

Lemma cache_dir_witness :
  new_interface (Sample.cli true) "/tmp/.zkb_cache/" false
  = new_interface (Sample.cli true) "/tmp/.zkb_cache" false.
Proof.
  apply (cache_dir_trailing_slash (Sample.cli true) "/tmp/.zkb_cache" false).
  reflexivity.
Defined.

(** A revalidation at work: the cached document stores a [last-modified],
    and the one request of the call carries it as [If-Modified-Since];
    with a body the request carries none. *)
Example fetch_requests_example :
  let run body :=
    get_zkb_data Sample.parsedate Sample.online Sample.url body false
      (Sample.cached_world Sample.good_doc [NetResponse Sample.not_modified]) in
  map (fun rq => rh_if_modified_since (rq_headers rq))
    (sends (trace (snd (run None)))) = [Some Sample.older]
  /\ map (fun rq => rh_if_modified_since (rq_headers rq))
       (sends (trace (snd (run (Some "[1]"))))) = [None].
Proof. split; reflexivity. Qed.
